(** * Earthquake map: the feature transform of [static/js/logic.js]

    A shallow embedding of the script that turns the USGS earthquake feed
    and the tectonic-plate document into Leaflet layers, together with the
    properties of its two derivation functions ([getMarkerSize],
    [getColorByDepth]), of the per-feature loop of [createMap] and of the
    request chain of [fetchData].

    Conventions of the embedding.
    - A JavaScript number is a binary64 number. The type [number] holds
      every rational and the three special values, so that it holds every
      binary64 number; the two zeros are one value. A decimal literal is
      the binary64 number nearest to it. Comparisons are exact. The one
      arithmetic operation of the script, [magnitude ** 7], rounds: its
      result is a binary64 number next to the exact power, and which of
      the two neighbours it is belongs to the engine.
    - A parsed JSON document is a [value]; objects are finite maps from
      property names to values, strings are sequences of characters.
    - An exception is the [Throw] outcome of the [result] monad.
    - Leaflet's constructors ([L.marker], [L.circle], [L.heatLayer],
      [L.geoJSON], [L.markerClusterGroup]) belong to an external library:
      they are embedded as records of the arguments they receive. *)

From Stdlib Require Import QArith Qcanon Qround Qpower.
From stdpp Require Import gmap strings list pretty.

Local Set Warnings "-register-all".
Local Open Scope string_scope.

(** ** Numbers *)

Module Number.

Inductive number : Type :=
| Finite (q : Qc)
| PosInfinity
| NegInfinity
| NaN.

(** An integer literal, for the integers the script and the examples
    write, all far below [2^53]. *)
Definition of_Z (z : Z) : number := Finite (Q2Qc (inject_Z z)).

(** The order of two numbers; [None] when either is [NaN]. *)
Definition compare (x y : number) : option comparison :=
  match x, y with
  | NaN, _ | _, NaN => None
  | Finite p, Finite q => Some (Qccompare p q)
  | PosInfinity, PosInfinity | NegInfinity, NegInfinity => Some Eq
  | NegInfinity, _ | _, PosInfinity => Some Lt
  | _, NegInfinity | PosInfinity, _ => Some Gt
  end.

(** [x > y] and [x <= y]; both are [false] on [NaN]. *)
Definition gt (x y : number) : bool :=
  match compare x y with Some Gt => true | _ => false end.

Definition le (x y : number) : bool :=
  match compare x y with Some Lt | Some Eq => true | _ => false end.

Definition lt (x y : number) : bool :=
  match compare x y with Some Lt => true | _ => false end.


(** *** The binary64 numbers next to a rational *)

(** The largest finite binary64 number, [(2^53 - 1) * 2^971]. *)
Definition max_binary64 : Q := inject_Z ((2 ^ 53 - 1) * 2 ^ 971).

(** [floor (log2 x)] for [0 < x]: the difference of the logarithms of
    numerator and denominator, or one less. *)
Definition floor_log2 (x : Q) : Z :=
  let e := (Z.log2 (Qnum x) - Z.log2 (Zpos (Qden x)))%Z in
  if Qle_bool (2 ^ e)%Q x then e else (e - 1)%Z.

(** The distance between the binary64 numbers around [0 < x]: 53
    significant bits, and [2^-1074] below the normal range. *)
Definition ulp (x : Q) : Q := (2 ^ (Z.max (floor_log2 x) (-1022) - 52))%Q.

(** The binary64 number just below and just above [0 < x], which are [x]
    itself when it is one; above [max_binary64] there is only
    [Infinity]. *)
Definition below_positive (x : Q) : Q :=
  if Qle_bool x max_binary64
  then (inject_Z (Qfloor (x / ulp x)) * ulp x)%Q
  else max_binary64.

Definition above_positive (x : Q) : option Q :=
  if Qle_bool x max_binary64
  then Some (inject_Z (Qceiling (x / ulp x)) * ulp x)%Q
  else None.

Definition nearest_below (x : Qc) : number :=
  match Qcompare x 0 with
  | Eq => Finite x
  | Gt => Finite (Q2Qc (below_positive x))
  | Lt =>
      match above_positive (- x)%Q with
      | Some y => Finite (Q2Qc (- y)%Q)
      | None => NegInfinity
      end
  end.

Definition nearest_above (x : Qc) : number :=
  match Qcompare x 0 with
  | Eq => Finite x
  | Gt =>
      match above_positive x with
      | Some y => Finite (Q2Qc y)
      | None => PosInfinity
      end
  | Lt => Finite (Q2Qc (- below_positive (- x))%Q)
  end.


(** The binary64 number nearest to a rational, the one with the even
    significand when two are as near; from halfway between
    [max_binary64] and [2^1024] on it is [Infinity]. *)
Definition round_positive (x : Q) : option Q :=
  if Qle_bool x max_binary64 then
    let k := Qfloor (x / ulp x) in
    let up :=
      match Qcompare (x / ulp x - inject_Z k)%Q (Qmake 1 2) with
      | Lt => false
      | Eq => Z.odd k
      | Gt => true
      end in
    Some (inject_Z (if up then k + 1 else k) * ulp x)%Q
  else if Qle_bool (2 ^ 1024 - 2 ^ 970)%Q x then None
  else Some max_binary64.

Definition to_binary64 (x : Qc) : number :=
  match Qcompare x 0 with
  | Eq => Finite x
  | Gt =>
      match round_positive x with
      | Some y => Finite (Q2Qc y)
      | None => PosInfinity
      end
  | Lt =>
      match round_positive (- x)%Q with
      | Some y => Finite (Q2Qc (- y)%Q)
      | None => NegInfinity
      end
  end.

(** A decimal literal, as the parser of the language and of JSON reads
    it: [decimal 7001 2] is the binary64 number nearest to [70.01]. *)
Definition decimal (mantissa : Z) (digits : nat) : number :=
  to_binary64 (Q2Qc (Qmake mantissa (Z.to_pos (10 ^ Z.of_nat digits)))).

Arguments decimal : simpl never.

(** Rounding to the nearer neighbour, and to [Infinity] past the
    largest: whether [nearest_above x] is the one. *)
Definition nearer_above (x : Qc) : bool :=
  match nearest_below x, nearest_above x with
  | Finite b, Finite a => negb (Qle_bool (x - b)%Q (a - x)%Q)
  | Finite _, PosInfinity => true
  | _, _ => false
  end.

End Number.
Export Number.

(** ** The language runtime *)

(** What the script takes from the engine it runs on: the two conversions
    between numbers and their text, reached only when a feed carries a
    string where a number is expected or the reverse, and the accuracy of
    [**], which the language leaves to the engine: [pow_rounds_up base n]
    tells whether [base ** n] is the binary64 number above the exact
    power or the one below. *)
Class Runtime : Type := {
  StringToNumber : string -> number;
  NumberToString : number -> string;
  pow_rounds_up : number -> nat -> bool
}.

(** ** Helper functions of the script *)

Section Helpers.

Context `{Runtime}.

(** [base ** n] for a natural-number literal [n]. *)
Definition exponentiate (base : number) (n : nat) : number :=
  match n with
  | O => of_Z 1
  | S _ =>
      match base with
      | Finite q =>
          if pow_rounds_up base n
          then nearest_above (Qcpower q n)
          else nearest_below (Qcpower q n)
      | PosInfinity => PosInfinity
      | NegInfinity => if Nat.even n then PosInfinity else NegInfinity
      | NaN => NaN
      end
  end.

(** [const getMarkerSize = (magnitude) => magnitude > 0 ? magnitude ** 7 : 1;] *)
Definition getMarkerSize (magnitude : number) : number :=
  if gt magnitude (of_Z 0) then exponentiate magnitude 7 else of_Z 1.

End Helpers.

(** [getColorByDepth]: five guarded returns and a final one. *)
Definition getColorByDepth (depth : number) : string :=
  if le depth (of_Z 10) then "#98EE00"
  else if le depth (of_Z 30) then "#D4EE00"
  else if le depth (of_Z 50) then "#EECC00"
  else if le depth (of_Z 70) then "#EE9C00"
  else if le depth (of_Z 90) then "#EA822C"
  else "#EA2C2C".

(** ** Values and exceptions *)

Inductive value : Type :=
| VUndefined
| VNull
| VBool (b : bool)
| VNum (n : number)
| VStr (s : string)
| VArr (elems : list value)
| VObj (fields : gmap string value).

Inductive error : Type :=
| TypeError.

Inductive result (A : Type) : Type :=
| Ok (a : A)
| Throw (e : error).
Arguments Ok {A} a.
Arguments Throw {A} e.

#[global] Instance result_ret : MRet result := fun _ a => Ok a.
#[global] Instance result_bind : MBind result := fun _ _ f m =>
  match m with
  | Ok a => f a
  | Throw e => Throw e
  end.

(** [if (v)]: the falsy values are [undefined], [null], [false], zero,
    [NaN] and the empty string. *)
Definition ToBoolean (v : value) : bool :=
  match v with
  | VUndefined | VNull => false
  | VBool b => b
  | VNum (Finite q) => negb (bool_decide (q = Q2Qc 0))
  | VNum NaN => false
  | VNum _ => true
  | VStr s => negb (bool_decide (s = EmptyString))
  | VArr _ | VObj _ => true
  end.

(** [v.name], for a name that no built-in prototype defines (the script
    reads [geometry], [properties], [coordinates], [mag], [title] and
    [features]): reading a property of [undefined] or [null] throws, an
    object yields its own property, everything else yields [undefined]. *)
Definition Get (v : value) (name : string) : result value :=
  match v with
  | VUndefined | VNull => Throw TypeError
  | VObj fields => Ok (default VUndefined (fields !! name))
  | _ => Ok VUndefined
  end.

(** [v[i]] for an integer literal [i]: arrays and strings are indexed, an
    object is read at the property named by the decimal numeral. *)
Definition GetIndex (v : value) (i : nat) : result value :=
  match v with
  | VUndefined | VNull => Throw TypeError
  | VArr elems => Ok (default VUndefined (elems !! i))
  | VStr s =>
      Ok (match String.get i s with
          | Some c => VStr (String c EmptyString)
          | None => VUndefined
          end)
  | VObj fields => Ok (default VUndefined (fields !! pretty i))
  | _ => Ok VUndefined
  end.

(** ** Leaflet layers, as the arguments their constructors receive *)

(** [L.marker(latlng).bindPopup(popup)] *)
Record Marker : Type := {
  marker_latlng : value;
  marker_popup : string
}.

(** [L.circle(latlng, { fillOpacity, color, fillColor, radius }).bindPopup(popup)] *)
Record Circle : Type := {
  circle_latlng : value;
  fillOpacity : number;
  color : string;
  fillColor : string;
  radius : number;
  circle_popup : string
}.

(** [L.heatLayer(latlngs, { radius, blur })] *)
Record HeatLayer : Type := {
  heat_latlngs : list value;
  heat_radius : number;
  heat_blur : number
}.

Record PathStyle : Type := {
  style_color : string;
  style_weight : number
}.

(** [L.geoJSON(data, { style })] *)
Record GeoJSONLayer : Type := {
  geo_data : value;
  geo_style : PathStyle
}.

(** The three collections the loop of [createMap] fills: the layers added
    to [markerCluster], and the arrays [heatPoints] and [circleMarkers],
    each in the order of the [addLayer] and [push] calls. *)
Record layers : Type := {
  markerCluster : list Marker;
  heatPoints : list value;
  circleMarkers : list Circle
}.

Definition no_layers : layers :=
  {| markerCluster := []; heatPoints := []; circleMarkers := [] |}.

(** The overlays of the layer control: ["Earthquake Markers"],
    ["Heatmap"], ["Circles"] and ["Tectonic Plates"]. *)
Record view : Type := {
  overlay_markers : list Marker;
  overlay_heatmap : HeatLayer;
  overlay_circles : list Circle;
  overlay_plates : GeoJSONLayer
}.

(** [xs.forEach(f)] with the state of the callback passed along: an
    exception in the callback ends the loop. Only an array has a
    [forEach]; calling it on anything else is a [TypeError]. *)
Fixpoint forEach_list {St : Type} (f : St -> value -> result St)
    (xs : list value) (acc : St) : result St :=
  match xs with
  | [] => Ok acc
  | x :: rest =>
      match f acc x with
      | Ok acc' => forEach_list f rest acc'
      | Throw e => Throw e
      end
  end.

Definition forEach {St : Type} (xs : value) (f : St -> value -> result St)
    (acc : St) : result St :=
  match xs with
  | VArr elems => forEach_list f elems acc
  | _ => Throw TypeError
  end.

Section Script.

Context `{Runtime}.

(** Interpolation [${v}] in a template literal. An array is joined with
    commas, its [undefined] and [null] elements printing as nothing. An
    object prints through [Object.prototype.toString]; when it has a
    [toString] property of its own, which in a JSON document is never a
    function, nothing converts it and the conversion is a [TypeError]. *)
Fixpoint ToString (v : value) : result string :=
  match v with
  | VUndefined => Ok "undefined"
  | VNull => Ok "null"
  | VBool true => Ok "true"
  | VBool false => Ok "false"
  | VNum n => Ok (NumberToString n)
  | VStr s => Ok s
  | VArr elems =>
      parts ← (fix join (l : list value) : result (list string) :=
                 match l with
                 | [] => Ok []
                 | e :: rest =>
                     s ← match e with
                         | VUndefined | VNull => Ok EmptyString
                         | _ => ToString e
                         end;
                     others ← join rest;
                     Ok (s :: others)
                 end) elems;
      Ok (String.concat "," parts)
  | VObj fields =>
      match fields !! "toString" with
      | Some _ => Throw TypeError
      | None => Ok "[object Object]"
      end
  end.

(** The numeric conversion applied by [>], [<=] and [**]: an array or an
    object is converted to its text first. *)
Definition ToNumber (v : value) : result number :=
  match v with
  | VUndefined => Ok NaN
  | VNull => Ok (of_Z 0)
  | VBool true => Ok (of_Z 1)
  | VBool false => Ok (of_Z 0)
  | VNum n => Ok n
  | VStr s => Ok (StringToNumber s)
  | VArr _ | VObj _ => s ← ToString v; Ok (StringToNumber s)
  end.

(** A helper of the script called on a value: [getColorByDepth] and
    [getMarkerSize] only compare their argument and raise it to a power,
    which converts it to a number. *)
Definition on_number {A : Type} (f : number -> A) (v : value) : result A :=
  n ← ToNumber v; Ok (f n).

(** *** The per-feature loop of [createMap] *)

(** Body of [earthquakeData.forEach(item => { ... })], the three
    collections threaded through as [layers]. *)
Definition process_item (acc : layers) (item : value) : result layers :=
  (* const { geometry, properties } = item; *)
  geometry ← Get item "geometry";
  properties ← Get item "properties";
  if ToBoolean geometry then
    (* const coordinates = [geometry.coordinates[1], geometry.coordinates[0]]; *)
    lat ← Get geometry "coordinates" ≫= (λ c, GetIndex c 1);
    lon ← Get geometry "coordinates" ≫= (λ c, GetIndex c 0);
    let coordinates := VArr [lat; lon] in
    (* const magnitude = properties.mag; *)
    magnitude ← Get properties "mag";
    (* const depth = geometry.coordinates[2]; *)
    depth ← Get geometry "coordinates" ≫= (λ c, GetIndex c 2);
    (* L.marker(coordinates).bindPopup(`<h1>${properties.title}</h1>`) *)
    marker_title ← Get properties "title" ≫= ToString;
    let marker :=
      {| marker_latlng := coordinates;
         marker_popup := "<h1>" +:+ marker_title +:+ "</h1>" |} in
    (* L.circle(coordinates, { fillOpacity: 0.75, color: getColorByDepth(depth),
         fillColor: getColorByDepth(depth), radius: getMarkerSize(magnitude) })
        .bindPopup(`<h1>${properties.title}</h1>`) *)
    circle_color ← on_number getColorByDepth depth;
    circle_fillColor ← on_number getColorByDepth depth;
    circle_radius ← on_number getMarkerSize magnitude;
    circle_title ← Get properties "title" ≫= ToString;
    let circle :=
      {| circle_latlng := coordinates;
         fillOpacity := decimal 75 2;
         color := circle_color;
         fillColor := circle_fillColor;
         radius := circle_radius;
         circle_popup := "<h1>" +:+ circle_title +:+ "</h1>" |} in
    Ok {| markerCluster := markerCluster acc ++ [marker];
          heatPoints := heatPoints acc ++ [coordinates];
          circleMarkers := circleMarkers acc ++ [circle] |}
  else Ok acc.

(** [createMap], as far as its layers are concerned: the loop over the
    features, then the heat layer, the plate layer and the overlays. *)
Definition createMap (earthquakeData geoJsonData : value) : result view :=
  acc ← forEach earthquakeData process_item no_layers;
  let heatLayer :=
    {| heat_latlngs := heatPoints acc;
       heat_radius := of_Z 25;
       heat_blur := of_Z 20 |} in
  let geoLayer :=
    {| geo_data := geoJsonData;
       geo_style := {| style_color := "firebrick"; style_weight := of_Z 5 |} |} in
  Ok {| overlay_markers := markerCluster acc;
        overlay_heatmap := heatLayer;
        overlay_circles := circleMarkers acc;
        overlay_plates := geoLayer |}.

End Script.

(** ** The request chain of [fetchData] *)

(** What the page does that can be observed from outside: a request is
    sent, a request settles (the callback given to [then] starts, or the
    promise is rejected and nothing handles it), [createMap] is called, a
    callback throws. *)
Inductive event : Type :=
| Request (url : string)
| Fulfilled (url : string) (response : value)
| Rejected (url : string)
| Invoke (earthquakeData geoJsonData : value)
| Uncaught (e : error).

(** A callback-passing program: [d3.json(url).then(callback)], a call of
    [createMap], or a throw from the body of a callback. *)
Inductive task : Type :=
| Then (url : string) (callback : value -> task)
| CreateMap (earthquakeData geoJsonData : value)
| Raise (e : error).

Definition earthquakeUrl : string :=
  "https://earthquake.usgs.gov/earthquakes/feed/v1.0/summary/all_week.geojson".

Definition tectonicUrl : string :=
  "https://raw.githubusercontent.com/fraxen/tectonicplates/master/GeoJSON/PB2002_boundaries.json".

Definition fetchData : task :=
  Then earthquakeUrl (λ earthquakeResponse,
    Then tectonicUrl (λ tectonicResponse,
      match Get earthquakeResponse "features" with
      | Ok earthquakeData => CreateMap earthquakeData tectonicResponse
      | Throw e => Raise e
      end)).

(** The network answers the requests in the order they are sent:
    [Some v] fulfils a request with the document [v], [None] rejects it,
    and a request for which the list has no answer never settles. *)
Fixpoint execute (t : task) (network : list (option value)) : list event :=
  match t with
  | Then url callback =>
      Request url ::
        match network with
        | [] => []
        | None :: _ => [Rejected url]
        | Some response :: later =>
            Fulfilled url response :: execute (callback response) later
        end
  | CreateMap earthquakeData geoJsonData => [Invoke earthquakeData geoJsonData]
  | Raise e => [Uncaught e]
  end.

(** ** Features of the feed *)

(** The test [if (geometry)] of the loop, on the feature itself. *)
Definition has_geometry (item : value) : bool :=
  match Get item "geometry" with
  | Ok geometry => ToBoolean geometry
  | Throw _ => false
  end.

(** Total readers, [undefined] where the access would throw. *)
Definition field (v : value) (name : string) : value :=
  match Get v name with Ok x => x | Throw _ => VUndefined end.

Definition element (v : value) (i : nat) : value :=
  match GetIndex v i with Ok x => x | Throw _ => VUndefined end.

Definition is_nullish (v : value) : bool :=
  match v with VUndefined | VNull => true | _ => false end.

(** [s] occurs in [text]. *)
Definition contains (text s : string) : Prop :=
  ∃ before after, text = before +:+ s +:+ after.

(** The plate layer [createMap] builds from a document. *)
Definition plates_layer (geoJsonData : value) : GeoJSONLayer :=
  {| geo_data := geoJsonData;
     geo_style := {| style_color := "firebrick"; style_weight := of_Z 5 |} |}.

(** The values that convert to text, and so to a number: no object with
    a [toString] property of its own, at the top or in an array. *)
Fixpoint convertible (v : value) : bool :=
  match v with
  | VArr elems => forallb convertible elems
  | VObj fields =>
      match fields !! "toString" with Some _ => false | None => true end
  | _ => true
  end.

(** The features on which the body of the loop raises nothing: the item
    is neither [undefined] nor [null] and, if its [geometry] is truthy,
    neither are [geometry.coordinates] and [properties], and the title,
    the depth and the magnitude convert. *)
Definition processable (item : value) : bool :=
  negb (is_nullish item) &&
  (negb (has_geometry item) ||
   (negb (is_nullish (field (field item "geometry") "coordinates")) &&
    negb (is_nullish (field item "properties")) &&
    convertible (field (field item "properties") "title") &&
    convertible (element (field (field item "geometry") "coordinates") 2) &&
    convertible (field (field item "properties") "mag"))).

(** A feature, read as a document and not through the script, whose
    [geometry] is an object, and one whose [properties] are [undefined],
    [null] or not there. *)
Definition geometry_present (item : value) : bool :=
  match item with
  | VObj fields =>
      match fields !! "geometry" with Some (VObj _) => true | _ => false end
  | _ => false
  end.

Definition properties_missing (item : value) : bool :=
  match item with
  | VObj fields =>
      match fields !! "properties" with
      | None | Some VUndefined | Some VNull => true
      | Some _ => false
      end
  | _ => false
  end.

Section Derived.

Context `{Runtime}.

(** The visual derived from one item of the feed: position [[lat, lon]],
    popup text, color and size. *)
Definition position_of (item : value) : value :=
  let coordinates := field (field item "geometry") "coordinates" in
  VArr [element coordinates 1; element coordinates 0].

Definition depth_of (item : value) : number :=
  match ToNumber (element (field (field item "geometry") "coordinates") 2) with
  | Ok n => n
  | Throw _ => NaN
  end.

Definition magnitude_of (item : value) : number :=
  match ToNumber (field (field item "properties") "mag") with
  | Ok n => n
  | Throw _ => NaN
  end.

Definition title_of (item : value) : string :=
  match ToString (field (field item "properties") "title") with
  | Ok s => s
  | Throw _ => EmptyString
  end.

Definition popup_of (item : value) : string :=
  "<h1>" +:+ title_of item +:+ "</h1>".

Definition marker_of (item : value) : Marker :=
  {| marker_latlng := position_of item; marker_popup := popup_of item |}.

Definition circle_of (item : value) : Circle :=
  {| circle_latlng := position_of item;
     fillOpacity := decimal 75 2;
     color := getColorByDepth (depth_of item);
     fillColor := getColorByDepth (depth_of item);
     radius := getMarkerSize (magnitude_of item);
     circle_popup := popup_of item |}.

(** The layers of a list of items: the visuals of those with a
    geometry, in the order of the list. *)
Definition view_of_features (items : list value) (geoJsonData : value) : view :=
  {| overlay_markers := marker_of <$> List.filter has_geometry items;
     overlay_heatmap :=
       {| heat_latlngs := position_of <$> List.filter has_geometry items;
          heat_radius := of_Z 25;
          heat_blur := of_Z 20 |};
     overlay_circles := circle_of <$> List.filter has_geometry items;
     overlay_plates :=
       {| geo_data := geoJsonData;
          geo_style := {| style_color := "firebrick";
                          style_weight := of_Z 5 |} |} |}.

End Derived.

(** The multiple of [10 ^ -digits] nearest to [x], counted in units of
    that last digit: how [x] prints with [digits] decimals. A tie goes
    away from zero; a number that is not finite has no such print. *)
Definition round_decimal (x : number) (digits : nat) : option Z :=
  match x with
  | Finite q =>
      let scaled := (q * inject_Z (10 ^ Z.of_nat digits))%Q in
      Some (if Qle_bool 0 scaled
            then Qfloor (scaled + Qmake 1 2)
            else (- Qfloor (- scaled + Qmake 1 2))%Z)
  | _ => None
  end.

(** ** The earthquake features of the data model *)

(** The [geometry] of a feature: not there, [null], or a point
    [{ coordinates: [longitude, latitude, depthKm] }]. *)
Inductive GeometryField : Type :=
| GeometryAbsent
| GeometryNull
| GeometryAt (longitude latitude depthKm : Qc).

(** [{ geometry: { coordinates: [longitude, latitude, depthKm] },
       properties: { mag: number, title: string } }], with whatever else
    the feed puts in the feature, in its geometry and in its
    properties. *)
Record EarthquakeFeature : Type := {
  feature_geometry : GeometryField;
  feature_mag : Qc;
  feature_title : string;
  feature_rest : gmap string value;
  geometry_rest : gmap string value;
  properties_rest : gmap string value
}.

(** The feature as the document [d3.json] hands to the script. *)
Definition to_value (f : EarthquakeFeature) : value :=
  let properties :=
    VObj (<["mag" := VNum (Finite (feature_mag f))]>
            (<["title" := VStr (feature_title f)]> (properties_rest f))) in
  let rest := <["properties" := properties]> (feature_rest f) in
  match feature_geometry f with
  | GeometryAbsent => VObj (delete "geometry" rest)
  | GeometryNull => VObj (<["geometry" := VNull]> rest)
  | GeometryAt longitude latitude depthKm =>
      let coordinates :=
        VArr [VNum (Finite longitude); VNum (Finite latitude);
              VNum (Finite depthKm)] in
      VObj (<["geometry" := VObj (<["coordinates" := coordinates]> (geometry_rest f))]>
              rest)
  end.

(** The features with a geometry, and what the data model derives from
    one: a marker at [[latitude, longitude]] with the title in its popup,
    that position as heat point, and a circle there with the colour of the
    depth and the size of the magnitude. *)
Definition located (f : EarthquakeFeature) : bool :=
  match feature_geometry f with
  | GeometryAt _ _ _ => true
  | _ => false
  end.

Definition point_spec (f : EarthquakeFeature) : option value :=
  match feature_geometry f with
  | GeometryAt longitude latitude _ =>
      Some (VArr [VNum (Finite latitude); VNum (Finite longitude)])
  | _ => None
  end.

Definition marker_spec (f : EarthquakeFeature) : option Marker :=
  match feature_geometry f with
  | GeometryAt longitude latitude _ =>
      Some {| marker_latlng := VArr [VNum (Finite latitude); VNum (Finite longitude)];
              marker_popup := "<h1>" +:+ feature_title f +:+ "</h1>" |}
  | _ => None
  end.

Definition circle_spec `{Runtime} (f : EarthquakeFeature) : option Circle :=
  match feature_geometry f with
  | GeometryAt longitude latitude depthKm =>
      Some {| circle_latlng := VArr [VNum (Finite latitude); VNum (Finite longitude)];
              fillOpacity := decimal 75 2;
              color := getColorByDepth (Finite depthKm);
              fillColor := getColorByDepth (Finite depthKm);
              radius := getMarkerSize (Finite (feature_mag f));
              circle_popup := "<h1>" +:+ feature_title f +:+ "</h1>" |}
  | _ => None
  end.

(** ** Documents used in the examples *)

(** The feature of the specification's scenario:
    [{geometry: {coordinates: [-122.4, 37.8, 5]},
      properties: {mag: 4.5, title: "M 4.5 - Bay Area"}}]. *)
Definition bay_area : value :=
  VObj {[ "geometry" :=
            VObj {[ "coordinates" :=
                      VArr [VNum (decimal (-1224) 1);
                            VNum (decimal 378 1);
                            VNum (of_Z 5)] ]};
          "properties" :=
            VObj {[ "mag" := VNum (decimal 45 1);
                    "title" := VStr "M 4.5 - Bay Area" ]} ]}.

(** A feature without a geometry, one with a geometry and nothing else,
    and one whose [properties] object is empty. *)
Definition unlocated : value :=
  VObj {[ "geometry" := VNull;
          "properties" :=
            VObj {[ "mag" := VNum (decimal 12 1);
                    "title" := VStr "M 1.2 - unlocated" ]} ]}.

Definition without_properties : value :=
  VObj {[ "geometry" :=
            VObj {[ "coordinates" :=
                      VArr [VNum (decimal (-1224) 1);
                            VNum (decimal 378 1);
                            VNum (of_Z 5)] ]} ]}.

Definition empty_properties : value :=
  VObj {[ "geometry" :=
            VObj {[ "coordinates" :=
                      VArr [VNum (decimal (-1224) 1);
                            VNum (decimal 378 1);
                            VNum (of_Z 5)] ]};
          "properties" := VObj ∅ ]}.

(** A runtime for the examples. Their documents hold numbers where the
    script compares and strings where it prints, so that neither
    conversion is reached; its [**] rounds to the nearer neighbour. *)
Definition example_runtime : Runtime :=
  {| StringToNumber := λ _, NaN;
     NumberToString := λ _, "NaN";
     pow_rounds_up := λ base n,
       match base with
       | Finite q => nearer_above (Qcpower q n)
       | _ => false
       end |}.

(** A feed of two features, a boundary document without boundaries, and
    the network that answers both requests with them. *)
Definition example_feed : value :=
  VObj {[ "features" := VArr [bay_area; unlocated] ]}.

Definition example_plates : value :=
  VObj {[ "type" := VStr "FeatureCollection"; "features" := VArr [] ]}.

Definition example_network : list (option value) :=
  [Some example_feed; Some example_plates].

(** Three features of the data model: the scenario's, one whose geometry
    is [null] and one that has none. *)
Definition bay_area_feature : EarthquakeFeature :=
  {| feature_geometry :=
       GeometryAt (Q2Qc (Qmake (-1224) 10)) (Q2Qc (Qmake 378 10)) (Q2Qc 5);
     feature_mag := Q2Qc (Qmake 45 10);
     feature_title := "M 4.5 - Bay Area";
     feature_rest := {[ "type" := VStr "Feature" ]};
     geometry_rest := {[ "type" := VStr "Point" ]};
     properties_rest := {[ "place" := VStr "Bay Area" ]} |}.

Definition null_feature : EarthquakeFeature :=
  {| feature_geometry := GeometryNull;
     feature_mag := Q2Qc (Qmake 12 10);
     feature_title := "M 1.2 - unlocated";
     feature_rest := ∅;
     geometry_rest := ∅;
     properties_rest := ∅ |}.

Definition bare_feature : EarthquakeFeature :=
  {| feature_geometry := GeometryAbsent;
     feature_mag := Q2Qc 3;
     feature_title := "M 3.0 - nowhere";
     feature_rest := {[ "id" := VStr "us7000" ]};
     geometry_rest := ∅;
     properties_rest := ∅ |}.

(** ** The legend *)

(** An element of [depthRange]: [{ color, range }]. *)
Record LegendEntry : Type := {
  entry_color : string;
  entry_range : string
}.

Definition depthRange : list LegendEntry :=
  [ {| entry_color := "#98EE00"; entry_range := "-10 to 10" |};
    {| entry_color := "#D4EE00"; entry_range := "10 to 30" |};
    {| entry_color := "#EECC00"; entry_range := "30 to 50" |};
    {| entry_color := "#EE9C00"; entry_range := "50 to 70" |};
    {| entry_color := "#EA822C"; entry_range := "70 to 90" |};
    {| entry_color := "#EA2C2C"; entry_range := "90+" |} ].

(** [`<i style='background: ${item.color}'></i>${item.range}<br/>`] *)
Definition legend_line (item : LegendEntry) : string :=
  "<i style='background: " +:+ entry_color item +:+ "'></i>"
    +:+ entry_range item +:+ "<br/>".

(** The loop of [legend.onAdd] over a list of entries:
    [let legendInfo = "<h4>Depth Legend</h4>";] and then
    [legendInfo += ...] for each of them. *)
Definition legend_html (entries : list LegendEntry) : string :=
  fold_left (λ legendInfo item, legendInfo +:+ legend_line item)
    entries "<h4>Depth Legend</h4>".

(** [div.innerHTML] of the legend control. *)
Definition legendInfo : string := legend_html depthRange.

(** The place of a colour in the legend, counted from its top. *)
Definition legend_position (c : string) : option nat :=
  fst <$> list_find (λ item, entry_color item = c) depthRange.

(** The layers of two lists of features, one after the other. *)
Definition append_view (v1 v2 : view) : view :=
  {| overlay_markers := overlay_markers v1 ++ overlay_markers v2;
     overlay_heatmap :=
       {| heat_latlngs :=
            heat_latlngs (overlay_heatmap v1) ++ heat_latlngs (overlay_heatmap v2);
          heat_radius := heat_radius (overlay_heatmap v1);
          heat_blur := heat_blur (overlay_heatmap v1) |};
     overlay_circles := overlay_circles v1 ++ overlay_circles v2;
     overlay_plates := overlay_plates v1 |}.

Section Page.

Context `{Runtime}.

(** What the page ends with, the network answering as in [execute]:
    nothing while a request is unanswered or after one is rejected, and
    otherwise what the innermost callback does, which is to read
    [earthquakeResponse.features] and call [createMap]. *)
Fixpoint outcome (t : task) (network : list (option value)) : option (result view) :=
  match t with
  | Then url callback =>
      match network with
      | Some response :: later => outcome (callback response) later
      | _ => None
      end
  | CreateMap earthquakeData geoJsonData =>
      Some (createMap earthquakeData geoJsonData)
  | Raise e => Some (Throw e)
  end.

End Page.

(** A feature whose [geometry] has no [coordinates], and a feed whose
    [features] hold it. *)
Definition without_coordinates : value :=
  VObj {[ "geometry" := VObj ∅;
          "properties" := VObj {[ "mag" := VNum (of_Z 3) ]} ]}.

(** A feature with two coordinates and a [null] magnitude. *)
Definition shallow_unknown : value :=
  VObj {[ "geometry" :=
            VObj {[ "coordinates" :=
                      VArr [VNum (decimal (-1224) 1); VNum (decimal 378 1)] ]};
          "properties" :=
            VObj {[ "mag" := VNull; "title" := VStr "M ? - offshore" ]} ]}.

(** * Properties *)

(** ** The order on numbers *)

Lemma Finite_eq (p q : Qc) : Qeq p q → Finite p = Finite q.
Proof. intros H. f_equal. by apply Qc_is_canon. Qed.

Lemma gt_Finite (p q : Qc) : gt (Finite p) (Finite q) = true ↔ (q < p)%Qc.
Proof.
  unfold gt; cbn. rewrite (Qcgt_alt p q).
  destruct (Qccompare p q); split; congruence.
Qed.

Lemma lt_Finite (p q : Qc) : lt (Finite p) (Finite q) = true ↔ (p < q)%Qc.
Proof.
  unfold lt; cbn. rewrite (Qclt_alt p q).
  destruct (Qccompare p q); split; congruence.
Qed.

Lemma le_Finite (p q : Qc) : le (Finite p) (Finite q) = true ↔ (p ≤ q)%Qc.
Proof.
  unfold le; cbn. rewrite (Qcle_alt p q).
  destruct (Qccompare p q); split; congruence.
Qed.

(** [x > y] excludes [x <= y], and more so below [y]. *)
Lemma gt_le_false (d a b : number) :
  gt d b = true → le a b = true → le d a = false.
Proof.
  destruct d as [p| | |], a as [q| | |], b as [r| | |]; try done.
  intros Hgt Hle. apply gt_Finite in Hgt. apply le_Finite in Hle.
  apply not_true_is_false. intros Hpq. apply le_Finite in Hpq.
  apply (Qclt_not_le r p Hgt). by apply Qcle_trans with q.
Qed.

Lemma lt_le_true (d a b : number) :
  lt d a = true → le a b = true → le d b = true.
Proof.
  destruct d as [p| | |], a as [q| | |], b as [r| | |]; try done.
  intros Hlt Hle. apply lt_Finite in Hlt. apply le_Finite in Hle.
  apply le_Finite. apply Qclt_le_weak. by apply Qclt_le_trans with q.
Qed.


(** ** The binary64 numbers next to a rational *)

Lemma ulp_pos (x : Q) : (0 < ulp x)%Q.
Proof. unfold ulp. by apply Qpower_0_lt. Qed.

Lemma ulp_cancel (x : Q) : (x / ulp x * ulp x == x)%Q.
Proof.
  unfold Qdiv. rewrite <- Qmult_assoc, (Qmult_comm (/ ulp x)), Qmult_inv_r.
  - apply Qmult_1_r.
  - intros H0. generalize (ulp_pos x). rewrite H0. apply Qlt_irrefl.
Qed.



Lemma above_positive_ge (x y : Q) : above_positive x = Some y → (x <= y)%Q.
Proof.
  unfold above_positive. destruct (Qle_bool x max_binary64); [|done].
  intros [= <-]. apply Qle_trans with (x / ulp x * ulp x)%Q.
  - apply Qle_lteq. right. symmetry. apply ulp_cancel.
  - apply Qmult_le_compat_r; [apply Qle_ceiling|apply Qlt_le_weak, ulp_pos].
Qed.

Lemma below_positive_nonneg (x : Q) : (0 <= x)%Q → (0 <= below_positive x)%Q.
Proof.
  intros Hx. unfold below_positive. destruct (Qle_bool x max_binary64); [|done].
  apply Qmult_le_0_compat; [|apply Qlt_le_weak, ulp_pos].
  change 0%Q with (inject_Z 0). rewrite <- Zle_Qle.
  change 0%Z with (Qfloor 0). apply Qfloor_resp_le.
  apply Qle_shift_div_l; [apply ulp_pos|]. by rewrite Qmult_0_l.
Qed.



Lemma Qcompare_positive (q : Qc) : (0 < q)%Qc → Qcompare q 0 = Gt.
Proof. intros Hq. by apply Qgt_alt. Qed.


Lemma le_Finite_Q2Qc_r (a : Q) (q : Qc) :
  (q <= a)%Q → le (Finite q) (Finite (Q2Qc a)) = true.
Proof.
  intros Ha. apply le_Finite. unfold Qcle; cbn. by rewrite Qred_correct.
Qed.


Lemma nearest_above_ge (q : Qc) :
  (0 < q)%Qc → le (Finite q) (nearest_above q) = true.
Proof.
  intros Hq. unfold nearest_above. rewrite (Qcompare_positive q Hq).
  destruct (above_positive q) as [y|] eqn:Hy; [|done].
  by apply le_Finite_Q2Qc_r, above_positive_ge.
Qed.

Lemma nearest_below_nonneg (q : Qc) :
  (0 < q)%Qc → le (of_Z 0) (nearest_below q) = true.
Proof.
  intros Hq. unfold nearest_below. rewrite (Qcompare_positive q Hq).
  apply le_Finite_Q2Qc_r, below_positive_nonneg. by apply Qlt_le_weak.
Qed.



Lemma Qcpower_7_pos (q : Qc) : (0 < q)%Qc → (0 < q ^ 7)%Qc.
Proof.
  intros Hq. cbn. repeat (apply Qcmult_pos_pos; [done|]). done.
Qed.

(** ** Marker size *)

Section MarkerSize.

Context `{Runtime}.

Lemma exponentiate_positive (q : Qc) :
  exponentiate (Finite q) 7 = nearest_below (q ^ 7) ∨
  exponentiate (Finite q) 7 = nearest_above (q ^ 7).
Proof.
  unfold exponentiate. destruct (pow_rounds_up (Finite q) 7); auto.
Qed.


(** X1. The radius of a circle is never [NaN] and never below zero,
    whatever the magnitude and whichever way [**] rounds. *)
Theorem getMarkerSize_nonnegative (m : number) :
  le (of_Z 0) (getMarkerSize m) = true.
Proof.
  unfold getMarkerSize. destruct (gt m (of_Z 0)) eqn:Hm; [|done].
  destruct m as [q| | |]; try done.
  apply gt_Finite in Hm. pose proof (Qcpower_7_pos q Hm) as Hpow.
  destruct (exponentiate_positive q) as [-> | ->].
  - by apply nearest_below_nonneg.
  - pose proof (nearest_above_ge _ Hpow) as Hge.
    destruct (nearest_above (q ^ 7)) as [a| | |]; try done.
    apply le_Finite. apply le_Finite in Hge.
    apply Qcle_trans with (q ^ 7)%Qc; [by apply Qclt_le_weak|done].
Qed.

End MarkerSize.



(** Overflow and underflow of [**] under rounding to the nearer
    neighbour: a size of [Infinity], and a size of zero. *)
Lemma getMarkerSize_overflow :
  @getMarkerSize example_runtime (Finite (Q2Qc 2 ^ 200)) = PosInfinity ∧
  @getMarkerSize example_runtime (Finite (Q2Qc (Qmake 1 2) ^ 200)) = of_Z 0.
Proof. split; [by vm_compute|]. vm_compute. by apply Finite_eq. Qed.

(** ** Depth colour *)

(** A depth above [b] fails every test [depth <= a] with [a <= b]. *)
Ltac fail_tests_below Hgt :=
  repeat match goal with
         | |- context [le ?d ?a] =>
             rewrite (gt_le_false d a _ Hgt) by reflexivity
         end.

(** C3. The colour of a depth is a step function of six buckets whose
    upper bounds 10, 30, 50, 70 and 90 are inclusive. *)
Theorem getColorByDepth_buckets (d : number) :
  (le d (of_Z 10) = true → getColorByDepth d = "#98EE00") ∧
  (gt d (of_Z 10) = true → le d (of_Z 30) = true →
     getColorByDepth d = "#D4EE00") ∧
  (gt d (of_Z 30) = true → le d (of_Z 50) = true →
     getColorByDepth d = "#EECC00") ∧
  (gt d (of_Z 50) = true → le d (of_Z 70) = true →
     getColorByDepth d = "#EE9C00") ∧
  (gt d (of_Z 70) = true → le d (of_Z 90) = true →
     getColorByDepth d = "#EA822C") ∧
  (gt d (of_Z 90) = true → getColorByDepth d = "#EA2C2C") ∧
  getColorByDepth (of_Z 10) = "#98EE00" ∧
  getColorByDepth (of_Z 90) = "#EA822C" ∧
  getColorByDepth (of_Z 70) = "#EE9C00" ∧
  getColorByDepth (decimal 7001 2) = "#EA822C".
Proof.
  unfold getColorByDepth.
  split_and!; try reflexivity.
  - by intros ->.
  - intros Hgt ->. by fail_tests_below Hgt.
  - intros Hgt ->. by fail_tests_below Hgt.
  - intros Hgt ->. by fail_tests_below Hgt.
  - intros Hgt ->. by fail_tests_below Hgt.
  - intros Hgt. by fail_tests_below Hgt.
Qed.

Lemma getColorByDepth_buckets_witness :
  (gt (of_Z 42) (of_Z 30) = true ∧ le (of_Z 42) (of_Z 50) = true) ∧
  getColorByDepth (of_Z 42) = "#EECC00".
Proof.
  split; [split; reflexivity|].
  apply (getColorByDepth_buckets (of_Z 42)); reflexivity.
Defined.

(** C4, as the script has it. A negative depth is at most 10, so the
    first test of [getColorByDepth] answers: the colour is the green of
    the first bucket, which the legend labels [-10 to 10], and not the
    red of the last. *)
Theorem getColorByDepth_negative (d : number) :
  lt d (of_Z 0) = true →
  getColorByDepth d = "#98EE00" ∧ getColorByDepth d ≠ "#EA2C2C".
Proof.
  intros Hlt. unfold getColorByDepth.
  by rewrite (lt_le_true d (of_Z 0) (of_Z 10) Hlt).
Qed.

Lemma getColorByDepth_negative_witness :
  lt (of_Z (-5)) (of_Z 0) = true ∧
  getColorByDepth (of_Z (-5)) = "#98EE00" ∧
  getColorByDepth (of_Z (-5)) ≠ "#EA2C2C".
Proof.
  split; [reflexivity|]. apply (getColorByDepth_negative (of_Z (-5))). reflexivity.
Defined.

(** C4, as the specification words it, fails at depth [-5]: not every
    negative depth is red. *)
Lemma getColorByDepth_negative_not_red :
  ¬ (∀ d : number, lt d (of_Z 0) = true → getColorByDepth d = "#EA2C2C").
Proof. intros H. specialize (H (of_Z (-5)) eq_refl). discriminate H. Qed.

(** ** Reading and converting values *)

Lemma Throw_TypeError {A : Type} (e : error) : @Throw A e = Throw TypeError.
Proof. by destruct e. Qed.

Lemma Get_cases (v : value) (name : string) :
  Get v name = if is_nullish v then Throw TypeError else Ok (field v name).
Proof. by destruct v. Qed.

Lemma GetIndex_cases (v : value) (i : nat) :
  GetIndex v i = if is_nullish v then Throw TypeError else Ok (element v i).
Proof. by destruct v. Qed.

Lemma ToBoolean_not_nullish (v : value) : ToBoolean v = true → is_nullish v = false.
Proof. by destruct v. Qed.

Lemma has_geometry_field (item : value) :
  has_geometry item = ToBoolean (field item "geometry").
Proof. by destruct item. Qed.

(** Induction on a value, through its arrays. *)
Lemma value_ind_arrays (P : value → Prop) :
  P VUndefined → P VNull → (∀ b, P (VBool b)) → (∀ n, P (VNum n)) →
  (∀ s, P (VStr s)) →
  (∀ elems, Forall P elems → P (VArr elems)) →
  (∀ fields, P (VObj fields)) →
  ∀ v, P v.
Proof.
  intros Hu Hn Hb Hnum Hs Harr Hobj. fix IH 1.
  intros [| |b|n|s|elems|fields];
    [exact Hu|exact Hn|apply Hb|apply Hnum|apply Hs| |apply Hobj].
  apply Harr. induction elems as [|e elems IHelems]; constructor;
    [apply IH|exact IHelems].
Qed.

Section Conversions.

Context `{Runtime}.

(** A value converts to text exactly when it is [convertible]; the
    conversion raises a [TypeError] otherwise. *)
Lemma ToString_convertible (v : value) :
  (convertible v = true → ∃ s : string, ToString v = Ok s) ∧
  (convertible v = false → ToString v = Throw TypeError).
Proof.
  induction v as [| |b|n|s|elems IH|fields] using value_ind_arrays.
  - split; [by exists "undefined"|done].
  - split; [by exists "null"|done].
  - split; [|done]. destruct b; [by exists "true"|by exists "false"].
  - split; [by exists (NumberToString n)|done].
  - split; [by exists s|done].
  - assert ((forallb convertible elems = true →
             ∃ parts,
               (fix join (l : list value) : result (list string) :=
                  match l with
                  | [] => Ok []
                  | e :: rest =>
                      s ← match e with
                          | VUndefined | VNull => Ok EmptyString
                          | _ => ToString e
                          end;
                      others ← join rest;
                      Ok (s :: others)
                  end) elems = Ok parts) ∧
            (forallb convertible elems = false →
               (fix join (l : list value) : result (list string) :=
                  match l with
                  | [] => Ok []
                  | e :: rest =>
                      s ← match e with
                          | VUndefined | VNull => Ok EmptyString
                          | _ => ToString e
                          end;
                      others ← join rest;
                      Ok (s :: others)
                  end) elems = Throw TypeError)) as [Hok Hthrow].
    { induction IH as [|e elems [He_ok He_throw] _ [IHok IHthrow]]; cbn.
      - split; [eauto|done].
      - split.
        + intros [He Hrest]%andb_true_iff.
          destruct (He_ok He) as [s Hs], (IHok Hrest) as [parts ->].
          destruct e; cbn in *; rewrite ?Hs; cbn; eauto.
        + intros [He|Hrest]%andb_false_iff.
          * specialize (He_throw He). by destruct e; cbn in *; rewrite ?He_throw.
          * rewrite (IHthrow Hrest).
            destruct (convertible e) eqn:He.
            -- destruct (He_ok eq_refl) as [s Hs].
               by destruct e; cbn in *; rewrite ?Hs.
            -- specialize (He_throw eq_refl).
               by destruct e; cbn in *; rewrite ?He_throw. }
    split; cbn.
    + intros [parts ->]%Hok. cbn. eauto.
    + intros ->%Hthrow. done.
  - cbn. destruct (fields !! "toString"); split; try done.
    by exists "[object Object]".
Qed.

Lemma ToString_cases (v : value) :
  ToString v =
    if convertible v
    then Ok (match ToString v with Ok s => s | Throw _ => EmptyString end)
    else Throw TypeError.
Proof.
  destruct (ToString_convertible v) as [Hok Hthrow].
  destruct (convertible v); [|by apply Hthrow].
  by destruct (Hok eq_refl) as [s ->].
Qed.

Lemma ToNumber_cases (v : value) :
  ToNumber v =
    if convertible v
    then Ok (match ToNumber v with Ok n => n | Throw _ => NaN end)
    else Throw TypeError.
Proof.
  destruct v as [| |[]| | |elems|fields]; try done.
  - unfold ToNumber. rewrite ToString_cases.
    by destruct (convertible (VArr elems)).
  - unfold ToNumber. rewrite ToString_cases.
    by destruct (convertible (VObj fields)).
Qed.

End Conversions.

(** ** The loop over the features *)

Section Transform.

Context `{Runtime}.

(** One turn of the loop on any value: it raises exactly on the values
    that are not [processable], and otherwise adds the visuals of an item
    with a geometry and nothing for an item without. *)
Lemma process_item_processable (acc : layers) (item : value) :
  process_item acc item =
    if processable item then
      Ok (if has_geometry item then
            {| markerCluster := markerCluster acc ++ [marker_of item];
               heatPoints := heatPoints acc ++ [position_of item];
               circleMarkers := circleMarkers acc ++ [circle_of item] |}
          else acc)
    else Throw TypeError.
Proof.
  unfold process_item, processable, on_number.
  rewrite has_geometry_field, !(Get_cases item).
  destruct (is_nullish item); [done|]. cbn.
  destruct (ToBoolean (field item "geometry")) eqn:Hgeometry; [|done].
  rewrite !(Get_cases (field item "geometry")),
    (ToBoolean_not_nullish _ Hgeometry). cbn.
  rewrite !GetIndex_cases.
  destruct (is_nullish (field (field item "geometry") "coordinates")); [done|].
  cbn. rewrite !(Get_cases (field item "properties")).
  destruct (is_nullish (field item "properties")); [done|]. cbn.
  unfold marker_of, circle_of, popup_of, title_of, depth_of, magnitude_of,
    position_of.
  rewrite (ToString_cases (field (field item "properties") "title")).
  destruct (convertible (field (field item "properties") "title")); [|done].
  cbn.
  rewrite (ToNumber_cases
             (element (field (field item "geometry") "coordinates") 2)).
  destruct (convertible
              (element (field (field item "geometry") "coordinates") 2));
    [|done].
  cbn.
  rewrite (ToNumber_cases (field (field item "properties") "mag")).
  by destruct (convertible (field (field item "properties") "mag")).
Qed.

Lemma forEach_list_processable (items : list value) (acc : layers) :
  forEach_list process_item items acc =
    if forallb processable items then
      Ok {| markerCluster :=
              markerCluster acc ++ (marker_of <$> List.filter has_geometry items);
            heatPoints :=
              heatPoints acc ++ (position_of <$> List.filter has_geometry items);
            circleMarkers :=
              circleMarkers acc ++ (circle_of <$> List.filter has_geometry items) |}
    else Throw TypeError.
Proof.
  revert acc. induction items as [|item items IH]; intros acc; cbn.
  - rewrite !app_nil_r. by destruct acc.
  - rewrite process_item_processable.
    destruct (processable item); cbn; [|done].
    rewrite IH. destruct (forallb processable items); [|done].
    destruct (has_geometry item); cbn; [|done].
    by rewrite <- !app_assoc.
Qed.

(** The two ways [createMap] ends, on any earthquake data. *)
Lemma createMap_cases (earthquakeData geoJsonData : value) :
  createMap earthquakeData geoJsonData =
    match earthquakeData with
    | VArr items =>
        if forallb processable items
        then Ok (view_of_features items geoJsonData)
        else Throw TypeError
    | _ => Throw TypeError
    end.
Proof.
  destruct earthquakeData as [| | | | |items|]; try done.
  unfold createMap; cbn. rewrite forEach_list_processable.
  by destruct (forallb processable items).
Qed.

Lemma createMap_Ok (earthquakeData geoJsonData : value) (v : view) :
  createMap earthquakeData geoJsonData = Ok v →
  ∃ items : list value,
    earthquakeData = VArr items ∧
    forallb processable items = true ∧
    v = view_of_features items geoJsonData.
Proof.
  rewrite createMap_cases.
  destruct earthquakeData as [| | | | |items|]; try done.
  destruct (forallb processable items) eqn:Hall; [|done].
  intros [= <-]. by exists items.
Qed.

Lemma createMap_Ok_nth (items : list value) (geoJsonData : value) (v : view)
    (i : nat) (item : value) :
  createMap (VArr items) geoJsonData = Ok v →
  List.filter has_geometry items !! i = Some item →
  overlay_markers v !! i = Some (marker_of item) ∧
  heat_latlngs (overlay_heatmap v) !! i = Some (position_of item) ∧
  overlay_circles v !! i = Some (circle_of item).
Proof.
  intros (items' & [= <-] & _ & ->)%createMap_Ok Hi; cbn.
  by rewrite !list_lookup_fmap, Hi.
Qed.

(** *** Features of the data model *)

(** What the script reads in the document of a feature. *)
Lemma to_value_located (f : EarthquakeFeature) :
  has_geometry (to_value f) = located f.
Proof.
  unfold has_geometry, to_value, located.
  destruct (feature_geometry f); cbn; by simplify_map_eq.
Qed.

Lemma to_value_processable (f : EarthquakeFeature) :
  processable (to_value f) = true.
Proof.
  unfold processable. rewrite to_value_located.
  unfold to_value, located, field, element.
  destruct (feature_geometry f); cbn; by simplify_map_eq.
Qed.

Lemma to_value_marker (f : EarthquakeFeature) :
  located f = true → Some (marker_of (to_value f)) = marker_spec f.
Proof.
  unfold located, marker_spec, marker_of, popup_of, title_of, position_of,
    to_value, field, element.
  destruct (feature_geometry f); [done..|]. intros _; cbn.
  by simplify_map_eq.
Qed.

Lemma to_value_point (f : EarthquakeFeature) :
  located f = true → Some (position_of (to_value f)) = point_spec f.
Proof.
  unfold located, point_spec, position_of, to_value, field, element.
  destruct (feature_geometry f); [done..|]. intros _; cbn.
  by simplify_map_eq.
Qed.

Lemma to_value_circle (f : EarthquakeFeature) :
  located f = true → Some (circle_of (to_value f)) = circle_spec f.
Proof.
  unfold located, circle_spec, circle_of, popup_of, title_of, position_of,
    depth_of, magnitude_of, to_value, field, element.
  destruct (feature_geometry f); [done..|]. intros _; cbn.
  by simplify_map_eq.
Qed.

(** The visuals of the located features, read from the documents. *)
Lemma filter_to_value {A : Type} (g : value → A) (spec : EarthquakeFeature → option A)
    (fs : list EarthquakeFeature) :
  (∀ f, located f = true → Some (g (to_value f)) = spec f) →
  (∀ f, located f = false → spec f = None) →
  g <$> List.filter has_geometry (to_value <$> fs) = omap spec fs.
Proof.
  intros Hsome Hnone. induction fs as [|f fs IH]; [done|]. cbn.
  rewrite to_value_located. destruct (located f) eqn:Hf; cbn.
  - by rewrite <- (Hsome f Hf), IH.
  - by rewrite (Hnone f Hf), IH.
Qed.

Lemma createMap_to_value (fs : list EarthquakeFeature) (geoJsonData : value) :
  createMap (VArr (to_value <$> fs)) geoJsonData =
    Ok {| overlay_markers := omap marker_spec fs;
          overlay_heatmap :=
            {| heat_latlngs := omap point_spec fs;
               heat_radius := of_Z 25;
               heat_blur := of_Z 20 |};
          overlay_circles := omap circle_spec fs;
          overlay_plates := plates_layer geoJsonData |}.
Proof.
  rewrite createMap_cases.
  assert (forallb processable (to_value <$> fs) = true) as ->.
  { apply forallb_forall. intros item [f [<- _]]%in_map_iff.
    apply to_value_processable. }
  unfold view_of_features, plates_layer. f_equal. f_equal; [|f_equal|].
  - apply filter_to_value; [apply to_value_marker|].
    intros f. unfold located, marker_spec. by destruct (feature_geometry f).
  - apply filter_to_value; [apply to_value_point|].
    intros f. unfold located, point_spec. by destruct (feature_geometry f).
  - apply filter_to_value; [apply to_value_circle|].
    intros f. unfold located, circle_spec. by destruct (feature_geometry f).
Qed.

Lemma length_omap_located {A : Type} (spec : EarthquakeFeature → option A)
    (fs : list EarthquakeFeature) :
  (∀ f, is_Some (spec f) ↔ located f = true) →
  length (omap spec fs) = length (List.filter located fs).
Proof.
  intros Hspec. induction fs as [|f fs IH]; [done|]. cbn.
  destruct (spec f) as [a|] eqn:Hf, (located f) eqn:Hl; cbn; try by rewrite IH.
  - assert (is_Some (spec f)) as Hs%Hspec by by rewrite Hf. congruence.
  - assert (is_Some (spec f)) as [a Ha] by by apply Hspec. congruence.
Qed.

End Transform.
(** ** The transform on the features of the data model *)

Section Features.

Context `{Runtime}.

(** C1. On the documents of any list of features of the data model
    [createMap] raises nothing; it skips the features whose geometry is
    [null] or not there and gives each of the others, in the order of the
    list, the marker, the heat point and the circle that the data model
    derives from it: as many of each as there are features with a
    geometry. *)
Theorem createMap_one_per_geometry (fs : list EarthquakeFeature)
    (geoJsonData : value) :
  ∃ v : view,
    createMap (VArr (to_value <$> fs)) geoJsonData = Ok v ∧
    length (overlay_markers v) = length (List.filter located fs) ∧
    length (heat_latlngs (overlay_heatmap v)) = length (List.filter located fs) ∧
    length (overlay_circles v) = length (List.filter located fs) ∧
    overlay_markers v = omap marker_spec fs ∧
    heat_latlngs (overlay_heatmap v) = omap point_spec fs ∧
    overlay_circles v = omap circle_spec fs.
Proof.
  eexists. split; [apply createMap_to_value|]. cbn.
  split_and!; try done; apply length_omap_located; intros f;
    unfold marker_spec, point_spec, circle_spec, located;
    destruct (feature_geometry f); split; (done || by intros [? ?] || eauto).
Qed.

(** The visual of the i-th feature with a geometry is the i-th one. *)
Lemma omap_located_lookup {A : Type} (spec : EarthquakeFeature → option A)
    (fs : list EarthquakeFeature) (i : nat) (f : EarthquakeFeature) :
  (∀ g, located g = false → spec g = None) →
  (∀ g, located g = true → is_Some (spec g)) →
  List.filter located fs !! i = Some f →
  omap spec fs !! i = spec f.
Proof.
  intros Hnone Hsome. revert i.
  induction fs as [|g fs IH]; intros i Hi; [done|]. cbn in *.
  destruct (located g) eqn:Hg.
  - destruct (Hsome g Hg) as [a Ha]. rewrite Ha.
    destruct i as [|i]; cbn in *; [by injection Hi as <-|by apply IH].
  - rewrite (Hnone g Hg). by apply IH.
Qed.

(** C6. The circle of a feature with a geometry carries the popup text
    of its marker, which is the title of the feature between [<h1>] and
    [</h1>]. *)
Theorem createMap_popups (fs : list EarthquakeFeature) (geoJsonData : value) :
  ∃ v : view,
    createMap (VArr (to_value <$> fs)) geoJsonData = Ok v ∧
    ∀ (i : nat) (f : EarthquakeFeature),
      List.filter located fs !! i = Some f →
      ∃ (m : Marker) (c : Circle),
        overlay_markers v !! i = Some m ∧
        overlay_circles v !! i = Some c ∧
        circle_popup c = marker_popup m ∧
        marker_popup m = "<h1>" +:+ feature_title f +:+ "</h1>" ∧
        contains (marker_popup m) (feature_title f).
Proof.
  eexists. split; [apply createMap_to_value|]. cbn.
  intros i f Hi.
  assert (located f = true) as Hf.
  { apply list_elem_of_lookup_2, list_elem_of_In, filter_In in Hi. tauto. }
  rewrite (omap_located_lookup marker_spec fs i f),
    (omap_located_lookup circle_spec fs i f); try done;
    try (intros g; unfold marker_spec, circle_spec, located;
         by destruct (feature_geometry g); eauto).
  unfold marker_spec, circle_spec, located in *.
  destruct (feature_geometry f); try done.
  eexists _, _. split_and!; try done. by exists "<h1>", "</h1>".
Qed.

(** C7. Whenever [createMap] builds its layers, the plate layer holds
    the boundary document it was given, styled firebrick with weight 5;
    and on a list of processable items it does build them. *)
Theorem createMap_plates (geoJsonData : value) :
  (∀ (earthquakeData : value) (v : view),
     createMap earthquakeData geoJsonData = Ok v →
     overlay_plates v = plates_layer geoJsonData) ∧
  (∀ items : list value,
     forallb processable items = true →
     ∃ v : view,
       createMap (VArr items) geoJsonData = Ok v ∧
       geo_data (overlay_plates v) = geoJsonData ∧
       style_color (geo_style (overlay_plates v)) = "firebrick" ∧
       style_weight (geo_style (overlay_plates v)) = of_Z 5).
Proof.
  split.
  - intros earthquakeData v. unfold createMap.
    destruct (forEach earthquakeData process_item no_layers); cbn; [|done].
    by intros [= <-].
  - intros items Hall. exists (view_of_features items geoJsonData).
    split; [by rewrite createMap_cases, Hall|done].
Qed.

(** C8. An empty list of features gives empty collections and raises
    nothing. *)
Theorem createMap_empty (geoJsonData : value) :
  createMap (VArr []) geoJsonData =
    Ok {| overlay_markers := [];
          overlay_heatmap :=
            {| heat_latlngs := []; heat_radius := of_Z 25; heat_blur := of_Z 20 |};
          overlay_circles := [];
          overlay_plates := plates_layer geoJsonData |}.
Proof. reflexivity. Qed.

Lemma geometry_present_has_geometry (item : value) :
  geometry_present item = true → has_geometry item = true.
Proof.
  destruct item as [| | | | | |fields]; try done. cbn.
  by destruct (fields !! "geometry") as [[]|].
Qed.

Lemma properties_missing_nullish (item : value) :
  geometry_present item = true →
  properties_missing item = is_nullish (field item "properties").
Proof.
  destruct item as [| | | | | |fields]; try done. intros _. cbn.
  by destruct (fields !! "properties") as [[]|].
Qed.

(** C10, as the script has it. A feature whose geometry is there and
    whose [properties] are not makes [createMap] raise a [TypeError],
    wherever it stands in the list: nothing is skipped and no layer is
    built. So [createMap] returns only if every feature with a geometry
    has [properties] that are neither [undefined] nor [null]; they need
    hold neither [mag] nor [title], as an empty [properties] object goes
    through. *)
Theorem createMap_needs_properties (geoJsonData : value) :
  (∀ (items : list value) (item : value),
     In item items →
     geometry_present item = true →
     properties_missing item = true →
     createMap (VArr items) geoJsonData = Throw TypeError) ∧
  (∀ (items : list value) (item : value) (v : view),
     createMap (VArr items) geoJsonData = Ok v →
     In item items →
     geometry_present item = true →
     properties_missing item = false) ∧
  (∃ v : view, createMap (VArr [empty_properties]) geoJsonData = Ok v).
Proof.
  assert (∀ (items : list value) (item : value),
            In item items →
            geometry_present item = true →
            properties_missing item = true →
            createMap (VArr items) geoJsonData = Throw TypeError) as Hraise.
  { intros items item Hin Hgeometry Hmissing. rewrite createMap_cases.
    destruct (forallb processable items) eqn:Hall; [|done].
    rewrite forallb_forall in Hall. specialize (Hall item Hin).
    unfold processable in Hall.
    rewrite (geometry_present_has_geometry item Hgeometry) in Hall.
    rewrite <- (properties_missing_nullish item Hgeometry), Hmissing in Hall.
    cbn in Hall. rewrite !andb_false_r in Hall. done. }
  split_and!; [done| |].
  - intros items item v Hv Hin Hgeometry.
    destruct (properties_missing item) eqn:Hmissing; [|done].
    by rewrite (Hraise items item Hin Hgeometry Hmissing) in Hv.
  - exists (view_of_features [empty_properties] geoJsonData).
    by rewrite createMap_cases.
Qed.

Lemma exponentiate_bay_area :
  exponentiate (decimal 45 1) 7 = decimal 373669453125 7.
Proof.
  unfold exponentiate.
  destruct (pow_rounds_up (decimal 45 1) 7); vm_compute; by apply Finite_eq.
Qed.

(** C5, as the script has it. The scenario of the specification: the
    marker stands at [[37.8, -122.4]], latitude first, its popup contains
    the title, the circle is green, and its radius is [4.5 ** 7], which
    is 37366.9453125 and prints as 37366.9 to one decimal. *)
Theorem createMap_bay_area (geoJsonData : value) :
  ∃ (v : view) (m : Marker) (c : Circle),
    createMap (VArr [bay_area]) geoJsonData = Ok v ∧
    overlay_markers v = [m] ∧
    overlay_circles v = [c] ∧
    marker_latlng m = VArr [VNum (decimal 378 1); VNum (decimal (-1224) 1)] ∧
    contains (marker_popup m) "M 4.5 - Bay Area" ∧
    color c = "#98EE00" ∧
    radius c = exponentiate (decimal 45 1) 7 ∧
    radius c = decimal 373669453125 7 ∧
    round_decimal (radius c) 1 = Some 373669%Z.
Proof.
  exists (view_of_features [bay_area] geoJsonData),
    (marker_of bay_area), (circle_of bay_area).
  split; [by rewrite createMap_cases|].
  assert (magnitude_of bay_area = decimal 45 1) as Hmag by by vm_compute.
  assert (getMarkerSize (decimal 45 1) = exponentiate (decimal 45 1) 7)
    as Hsize by done.
  split_and!.
  - by vm_compute.
  - by vm_compute.
  - by vm_compute.
  - exists "<h1>", "</h1>". by vm_compute.
  - by vm_compute.
  - cbn. by rewrite Hmag.
  - cbn. by rewrite Hmag, Hsize, exponentiate_bay_area.
  - cbn. rewrite Hmag, Hsize, exponentiate_bay_area. by vm_compute.
Qed.

(** Inside a [properties] object neither [mag] nor [title] is needed
    for the loop to go through: the radius is then [1] and the popup
    prints [undefined]. *)
Lemma createMap_empty_properties (geoJsonData : value) :
  ∃ (v : view) (m : Marker) (c : Circle),
    createMap (VArr [empty_properties]) geoJsonData = Ok v ∧
    overlay_markers v = [m] ∧
    overlay_circles v = [c] ∧
    marker_popup m = "<h1>undefined</h1>" ∧
    radius c = of_Z 1.
Proof.
  exists (view_of_features [empty_properties] geoJsonData),
    (marker_of empty_properties), (circle_of empty_properties).
  split; [by rewrite createMap_cases|].
  split_and!; by vm_compute.
Qed.

End Features.

(** C5, as the specification words it, fails: to the one decimal the
    specification prints, the radius [4.5 ** 7] is not 37367.7. *)
Lemma createMap_bay_area_radius_not_37367_7 :
  ¬ (∃ (R : Runtime) (geoJsonData : value) (v : view) (c : Circle),
       createMap (VArr [bay_area]) geoJsonData = Ok v ∧
       overlay_circles v = [c] ∧
       radius c = exponentiate (decimal 45 1) 7 ∧
       round_decimal (radius c) 1 = Some 373677%Z).
Proof.
  intros (R & geoJsonData & v & c & _ & _ & -> & Hfix).
  rewrite exponentiate_bay_area in Hfix.
  vm_compute in Hfix. discriminate Hfix.
Qed.

(** C10, as the specification words it, fails: the feature with a
    geometry and an empty [properties] object goes through the loop, with
    neither [mag] nor [title] in it. *)
Lemma createMap_total_without_mag_title :
  ¬ (∀ (R : Runtime) (items : list value) (item geoJsonData : value) (v : view),
       @createMap R (VArr items) geoJsonData = Ok v →
       In item items →
       geometry_present item = true →
       ∃ properties : gmap string value,
         field item "properties" = VObj properties ∧
         is_Some (properties !! "mag") ∧
         is_Some (properties !! "title")).
Proof.
  intros Hall.
  destruct (Hall example_runtime [empty_properties] empty_properties example_plates
              (@view_of_features example_runtime [empty_properties] example_plates))
    as (properties & Hproperties & [mag Hmag] & _).
  - by vm_compute.
  - by left.
  - by vm_compute.
  - vm_compute in Hproperties. injection Hproperties as <-.
    by vm_compute in Hmag.
Qed.

(** ** Examples of the theorems above *)

(** Three features, one of them with a geometry: one marker, one heat
    point, one circle. *)
Lemma createMap_one_per_geometry_witness :
  ∃ (v : view) (m : Marker) (p : value) (c : Circle),
    @createMap example_runtime
      (VArr (to_value <$> [null_feature; bay_area_feature; bare_feature]))
      example_plates = Ok v ∧
    length (List.filter located [null_feature; bay_area_feature; bare_feature])
      = 1%nat ∧
    overlay_markers v = [m] ∧
    heat_latlngs (overlay_heatmap v) = [p] ∧
    overlay_circles v = [c] ∧
    marker_popup m = "<h1>M 4.5 - Bay Area</h1>" ∧
    color c = "#98EE00".
Proof.
  destruct (@createMap_one_per_geometry example_runtime
              [null_feature; bay_area_feature; bare_feature] example_plates)
    as (v & Hv & _ & _ & _ & Hm & Hp & Hc).
  exists v. eexists _, _, _. split; [exact Hv|].
  rewrite Hm, Hp, Hc. by vm_compute.
Defined.

Lemma createMap_popups_witness :
  List.filter located [null_feature; bay_area_feature] !! 0
    = Some bay_area_feature ∧
  ∃ v : view,
    @createMap example_runtime
      (VArr (to_value <$> [null_feature; bay_area_feature])) example_plates = Ok v ∧
    ∃ (m : Marker) (c : Circle),
      overlay_markers v !! 0 = Some m ∧
      overlay_circles v !! 0 = Some c ∧
      circle_popup c = marker_popup m ∧
      marker_popup m = "<h1>" +:+ feature_title bay_area_feature +:+ "</h1>" ∧
      contains (marker_popup m) (feature_title bay_area_feature).
Proof.
  split; [reflexivity|].
  destruct (@createMap_popups example_runtime
              [null_feature; bay_area_feature] example_plates) as (v & Hv & Hpopups).
  exists v. split; [exact Hv|]. apply Hpopups. reflexivity.
Defined.

Lemma createMap_plates_witness :
  forallb processable [bay_area; unlocated] = true ∧
  ∃ v : view,
    @createMap example_runtime (VArr [bay_area; unlocated]) example_plates = Ok v ∧
    geo_data (overlay_plates v) = example_plates ∧
    style_color (geo_style (overlay_plates v)) = "firebrick" ∧
    style_weight (geo_style (overlay_plates v)) = of_Z 5.
Proof.
  split; [by vm_compute|].
  apply (proj2 (@createMap_plates example_runtime example_plates)). by vm_compute.
Defined.

Lemma createMap_needs_properties_witness :
  (In without_properties [bay_area; without_properties; unlocated] ∧
   geometry_present without_properties = true ∧
   properties_missing without_properties = true) ∧
  @createMap example_runtime
    (VArr [bay_area; without_properties; unlocated]) example_plates = Throw TypeError.
Proof.
  split.
  - split; [right; left; reflexivity|]. split; by vm_compute.
  - apply (proj1 (@createMap_needs_properties example_runtime example_plates)
             [bay_area; without_properties; unlocated] without_properties).
    + right; left; reflexivity.
    + by vm_compute.
    + by vm_compute.
Defined.

(** ** The request chain *)

Lemma urls_differ : earthquakeUrl ≠ tectonicUrl.
Proof. apply String.eqb_neq. reflexivity. Qed.

(** The five shapes of a run of [fetchData]. *)
Lemma execute_fetchData (network : list (option value)) :
  execute fetchData network =
    Request earthquakeUrl ::
      match network with
      | [] => []
      | None :: _ => [Rejected earthquakeUrl]
      | Some earthquakeResponse :: later =>
          Fulfilled earthquakeUrl earthquakeResponse ::
          Request tectonicUrl ::
            match later with
            | [] => []
            | None :: _ => [Rejected tectonicUrl]
            | Some tectonicResponse :: _ =>
                [Fulfilled tectonicUrl tectonicResponse;
                 match Get earthquakeResponse "features" with
                 | Ok earthquakeData => Invoke earthquakeData tectonicResponse
                 | Throw e => Uncaught e
                 end]
            end
      end.
Proof.
  destruct network as [|[r1|] [|[r2|] later]]; cbn; try done.
  by destruct (Get r1 "features").
Qed.

(** C9. In every run of [fetchData] the request for the plates comes
    after the answer to the request for the earthquakes, and a call of
    [createMap] comes after both answers and receives the [features] of
    the first and the whole of the second. *)
Theorem fetchData_sequential (network : list (option value)) :
  (∀ i : nat,
     execute fetchData network !! i = Some (Request tectonicUrl) →
     ∃ (j : nat) (r : value),
       j < i ∧
       execute fetchData network !! j = Some (Fulfilled earthquakeUrl r)) ∧
  (∀ (i : nat) (earthquakeData geoJsonData : value),
     execute fetchData network !! i = Some (Invoke earthquakeData geoJsonData) →
     ∃ (j k : nat) (r1 r2 : value),
       j < k ∧ k < i ∧
       execute fetchData network !! j = Some (Fulfilled earthquakeUrl r1) ∧
       execute fetchData network !! k = Some (Fulfilled tectonicUrl r2) ∧
       Get r1 "features" = Ok earthquakeData ∧
       geoJsonData = r2).
Proof.
  rewrite execute_fetchData. split.
  - intros [|[|[|[|[|i]]]]] Hi;
      destruct network as [|[r1|] [|[r2|] later]]; cbn in Hi; try done;
      try (by destruct (Get r1 "features"));
      try (exfalso; apply urls_differ; congruence);
      exists 1, r1; (split; [lia|done]).
  - intros [|[|[|[|[|i]]]]] earthquakeData geoJsonData Hi;
      destruct network as [|[r1|] [|[r2|] later]]; cbn in Hi; try done.
    destruct (Get r1 "features") as [d|e] eqn:Hd; [|done].
    injection Hi as <- <-.
    exists 1, 3, r1, r2. split_and!; try lia; done.
Qed.

Lemma fetchData_sequential_witness :
  execute fetchData example_network !! 2 = Some (Request tectonicUrl) ∧
  ∃ (j : nat) (r : value),
    j < 2 ∧
    execute fetchData example_network !! j = Some (Fulfilled earthquakeUrl r).
Proof.
  split; [by vm_compute|].
  apply (proj1 (fetchData_sequential example_network) 2). by vm_compute.
Defined.

(** * Further properties of the script *)

(** ** Depth colour and the legend *)

Lemma le_trans (d1 d2 a : number) :
  le d1 d2 = true → le d2 a = true → le d1 a = true.
Proof.
  destruct d1 as [p| | |], d2 as [q| | |], a as [r| | |]; try done.
  intros H12 H2a. apply le_Finite in H12. apply le_Finite in H2a.
  apply le_Finite. by apply Qcle_trans with q.
Qed.

(** A number that is comparable and not at most a finite [a] is above it. *)
Lemma le_false_gt (d : number) (a : Qc) :
  d ≠ NaN → le d (Finite a) = false → gt d (Finite a) = true.
Proof.
  destruct d as [p| | |]; try done.
  intros _. unfold le, gt; cbn. by destruct (Qccompare p a).
Qed.

Lemma le_true_not_NaN (d a : number) : le d a = true → d ≠ NaN.
Proof. by intros H ->. Qed.

(** X4. The colour of a circle tells the bucket of its depth: a green
    circle is at most 10 deep, and so on; a red one is deeper than 90 or
    has a depth that is not a number. *)
Theorem getColorByDepth_inverse (d : number) :
  (getColorByDepth d = "#98EE00" → le d (of_Z 10) = true) ∧
  (getColorByDepth d = "#D4EE00" →
     gt d (of_Z 10) = true ∧ le d (of_Z 30) = true) ∧
  (getColorByDepth d = "#EECC00" →
     gt d (of_Z 30) = true ∧ le d (of_Z 50) = true) ∧
  (getColorByDepth d = "#EE9C00" →
     gt d (of_Z 50) = true ∧ le d (of_Z 70) = true) ∧
  (getColorByDepth d = "#EA822C" →
     gt d (of_Z 70) = true ∧ le d (of_Z 90) = true) ∧
  (getColorByDepth d = "#EA2C2C" → gt d (of_Z 90) = true ∨ d = NaN).
Proof.
  unfold getColorByDepth.
  destruct (le d (of_Z 10)) eqn:H10; [by split_and!|].
  destruct (le d (of_Z 30)) eqn:H30.
  { split_and!; try done. intros _. split; [|done].
    by apply le_false_gt; [apply (le_true_not_NaN _ _ H30)|]. }
  destruct (le d (of_Z 50)) eqn:H50.
  { split_and!; try done. intros _. split; [|done].
    by apply le_false_gt; [apply (le_true_not_NaN _ _ H50)|]. }
  destruct (le d (of_Z 70)) eqn:H70.
  { split_and!; try done. intros _. split; [|done].
    by apply le_false_gt; [apply (le_true_not_NaN _ _ H70)|]. }
  destruct (le d (of_Z 90)) eqn:H90.
  { split_and!; try done. intros _. split; [|done].
    by apply le_false_gt; [apply (le_true_not_NaN _ _ H90)|]. }
  split_and!; try done. intros _.
  destruct d as [q| | |]; [left|left|left|by right]; by apply le_false_gt.
Qed.

Lemma getColorByDepth_inverse_witness :
  getColorByDepth (of_Z 35) = "#EECC00" ∧
  gt (of_Z 35) (of_Z 30) = true ∧ le (of_Z 35) (of_Z 50) = true.
Proof.
  split; [reflexivity|].
  apply (getColorByDepth_inverse (of_Z 35)). reflexivity.
Defined.

Lemma append_assoc (s t u : string) : (s +:+ t) +:+ u = s +:+ t +:+ u.
Proof. induction s as [|a s IH]; [done|]. cbv [String.append] in *. by f_equal. Qed.

(** The loop of the legend only adds text at the end. *)
Lemma legend_loop_extends (entries : list LegendEntry) (acc : string) :
  ∃ rest : string,
    fold_left (λ legendInfo item, legendInfo +:+ legend_line item) entries acc
    = acc +:+ rest.
Proof.
  revert acc. induction entries as [|x entries IH]; intros acc; cbn.
  - exists EmptyString. induction acc as [|a acc IHacc]; [done|].
    cbv [String.append] in *. by f_equal.
  - destruct (IH (acc +:+ legend_line x)) as [rest ->].
    exists (legend_line x +:+ rest). apply append_assoc.
Qed.

Lemma legend_loop_contains (entries : list LegendEntry) (acc : string)
    (item : LegendEntry) :
  In item entries →
  contains
    (fold_left (λ legendInfo item, legendInfo +:+ legend_line item) entries acc)
    (legend_line item).
Proof.
  revert acc. induction entries as [|x entries IH]; intros acc; [done|].
  intros [->|Hin]; cbn; [|by apply IH].
  destruct (legend_loop_extends entries (acc +:+ legend_line item)) as [rest ->].
  exists acc, rest. apply append_assoc.
Qed.

(** X5. The legend and the circles use the same six colours: the colour
    of every depth has a line in the legend's HTML, and every line of the
    legend shows the colour of some depth. *)
Theorem legend_matches_colours :
  (∀ d : number,
     ∃ item : LegendEntry,
       In item depthRange ∧
       entry_color item = getColorByDepth d ∧
       contains legendInfo (legend_line item)) ∧
  (∀ item : LegendEntry,
     In item depthRange →
     ∃ d : number, getColorByDepth d = entry_color item).
Proof.
  split.
  - intros d.
    assert (∃ item, In item depthRange ∧ entry_color item = getColorByDepth d)
      as (item & Hin & Hcolor).
    { unfold getColorByDepth.
      destruct (le d (of_Z 10));
        [eexists; split; [left; reflexivity|done]|].
      destruct (le d (of_Z 30));
        [eexists; split; [right; left; reflexivity|done]|].
      destruct (le d (of_Z 50));
        [eexists; split; [do 2 right; left; reflexivity|done]|].
      destruct (le d (of_Z 70));
        [eexists; split; [do 3 right; left; reflexivity|done]|].
      destruct (le d (of_Z 90));
        [eexists; split; [do 4 right; left; reflexivity|done]|].
      eexists; split; [do 5 right; left; reflexivity|done]. }
    exists item. split_and!; [done..|].
    by apply legend_loop_contains.
  - intros item Hin. cbn in Hin.
    destruct Hin as [<-|[<-|[<-|[<-|[<-|[<-|[]]]]]]].
    + by exists (of_Z 0).
    + by exists (of_Z 20).
    + by exists (of_Z 40).
    + by exists (of_Z 60).
    + by exists (of_Z 80).
    + by exists (of_Z 100).
Qed.

(** X6. Colours follow the legend downwards: of two depths the deeper one
    never has the colour of an earlier line of the legend. *)
Theorem getColorByDepth_monotone (d1 d2 : number) :
  le d1 d2 = true →
  ∃ i j : nat,
    legend_position (getColorByDepth d1) = Some i ∧
    legend_position (getColorByDepth d2) = Some j ∧
    (i ≤ j)%nat.
Proof.
  intros H12. unfold getColorByDepth.
  destruct (le d2 (of_Z 10)) eqn:H10;
    [rewrite (le_trans d1 d2 _ H12 H10); by exists 0, 0|].
  destruct (le d2 (of_Z 30)) eqn:H30;
    [rewrite (le_trans d1 d2 _ H12 H30);
     destruct (le d1 (of_Z 10)); eexists _, 1;
     (split_and!; [by vm_compute|by vm_compute|lia])|].
  destruct (le d2 (of_Z 50)) eqn:H50;
    [rewrite (le_trans d1 d2 _ H12 H50);
     destruct (le d1 (of_Z 10)), (le d1 (of_Z 30)); eexists _, 2;
     (split_and!; [by vm_compute|by vm_compute|lia])|].
  destruct (le d2 (of_Z 70)) eqn:H70;
    [rewrite (le_trans d1 d2 _ H12 H70);
     destruct (le d1 (of_Z 10)), (le d1 (of_Z 30)), (le d1 (of_Z 50));
     eexists _, 3; (split_and!; [by vm_compute|by vm_compute|lia])|].
  destruct (le d2 (of_Z 90)) eqn:H90;
    [rewrite (le_trans d1 d2 _ H12 H90);
     destruct (le d1 (of_Z 10)), (le d1 (of_Z 30)), (le d1 (of_Z 50)),
       (le d1 (of_Z 70));
     eexists _, 4; (split_and!; [by vm_compute|by vm_compute|lia])|].
  destruct (le d1 (of_Z 10)), (le d1 (of_Z 30)), (le d1 (of_Z 50)),
    (le d1 (of_Z 70)), (le d1 (of_Z 90));
    eexists _, 5; (split_and!; [by vm_compute|by vm_compute|lia]).
Qed.

Lemma getColorByDepth_monotone_witness :
  le (of_Z 20) (of_Z 80) = true ∧
  ∃ i j : nat,
    legend_position (getColorByDepth (of_Z 20)) = Some i ∧
    legend_position (getColorByDepth (of_Z 80)) = Some j ∧
    (i ≤ j)%nat.
Proof.
  split; [reflexivity|].
  apply (getColorByDepth_monotone (of_Z 20) (of_Z 80)). reflexivity.
Defined.

(** ** The loop, on any document *)

Section Loop.

Context `{Runtime}.

(** X7. [createMap] returns only on an array of processable items, and
    what it returns is then fixed by the items with a truthy geometry:
    their markers, heat points and circles, in their order, and the
    boundary document as the data of the plate layer. *)
Theorem createMap_returns (earthquakeData geoJsonData : value) (v : view) :
  createMap earthquakeData geoJsonData = Ok v →
  ∃ items : list value,
    earthquakeData = VArr items ∧
    (∀ item : value, In item items → processable item = true) ∧
    overlay_markers v = marker_of <$> List.filter has_geometry items ∧
    heat_latlngs (overlay_heatmap v)
      = position_of <$> List.filter has_geometry items ∧
    overlay_circles v = circle_of <$> List.filter has_geometry items ∧
    overlay_plates v = plates_layer geoJsonData.
Proof.
  intros (items & -> & Hall & ->)%createMap_Ok. exists items.
  split; [done|]. split; [by apply forallb_forall|done].
Qed.

(** X8. In every result of [createMap] the three collections run in
    parallel: the i-th marker, heat point and circle stand at the same
    position, the i-th circle has the popup of the i-th marker, and every
    circle is filled with the colour of its outline. *)
Theorem createMap_parallel (earthquakeData geoJsonData : value) (v : view) :
  createMap earthquakeData geoJsonData = Ok v →
  marker_latlng <$> overlay_markers v = heat_latlngs (overlay_heatmap v) ∧
  circle_latlng <$> overlay_circles v = heat_latlngs (overlay_heatmap v) ∧
  circle_popup <$> overlay_circles v = marker_popup <$> overlay_markers v ∧
  Forall (λ c, fillColor c = color c) (overlay_circles v).
Proof.
  intros (items & -> & _ & ->)%createMap_Ok; cbn.
  rewrite <- !list_fmap_compose. split_and!; try done.
  apply Forall_fmap. by apply Forall_true.
Qed.

(** X9. Two feeds one after the other: [createMap] on the concatenation
    of two arrays returns the layers of the first followed by the layers
    of the second, and raises as soon as it raises on either. *)
Theorem createMap_app (xs ys : list value) (geoJsonData : value) :
  createMap (VArr (xs ++ ys)) geoJsonData =
    match createMap (VArr xs) geoJsonData, createMap (VArr ys) geoJsonData with
    | Ok v1, Ok v2 => Ok (append_view v1 v2)
    | _, _ => Throw TypeError
    end.
Proof.
  rewrite !createMap_cases, forallb_app.
  destruct (forallb processable xs), (forallb processable ys); try done.
  cbn. unfold view_of_features, append_view; cbn.
  by rewrite List.filter_app, !fmap_app.
Qed.

(** X10. One bad entry spoils the whole map: an array holding [null] or
    [undefined], or an item whose truthy [geometry] has no [coordinates],
    makes [createMap] raise a [TypeError]. *)
Theorem createMap_bad_item (items : list value) (item geoJsonData : value) :
  In item items →
  is_nullish item = true ∨
    (has_geometry item = true ∧
     is_nullish (field (field item "geometry") "coordinates") = true) →
  createMap (VArr items) geoJsonData = Throw TypeError.
Proof.
  intros Hin Hbad. rewrite createMap_cases.
  destruct (forallb processable items) eqn:Hall; [|done].
  rewrite forallb_forall in Hall. specialize (Hall item Hin).
  unfold processable in Hall.
  destruct Hbad as [Hnull|[Hgeo Hcoords]].
  - by rewrite Hnull in Hall.
  - rewrite Hgeo, Hcoords in Hall. cbn in Hall.
    by rewrite andb_false_r in Hall.
Qed.

(** X11. An item without a geometry leaves no trace: taking it out of
    the array changes nothing to what [createMap] returns or raises. *)
Theorem createMap_skips (before after : list value) (item geoJsonData : value) :
  is_nullish item = false →
  has_geometry item = false →
  createMap (VArr (before ++ item :: after)) geoJsonData =
  createMap (VArr (before ++ after)) geoJsonData.
Proof.
  intros Hnull Hgeo. rewrite !createMap_cases, !forallb_app; cbn.
  assert (processable item = true) as ->.
  { unfold processable. by rewrite Hnull, Hgeo. }
  unfold view_of_features. rewrite !List.filter_app; cbn.
  by rewrite Hgeo.
Qed.

(** X12. Longitude and latitude change places: an item whose coordinates
    start with [lon, lat] has its marker, its heat point and its circle
    at [[lat, lon]]. *)
Theorem createMap_swaps (items : list value) (geoJsonData : value) (v : view)
    (i : nat) (item lon lat : value) (rest : list value) :
  createMap (VArr items) geoJsonData = Ok v →
  List.filter has_geometry items !! i = Some item →
  field (field item "geometry") "coordinates" = VArr (lon :: lat :: rest) →
  ∃ (m : Marker) (c : Circle),
    overlay_markers v !! i = Some m ∧
    heat_latlngs (overlay_heatmap v) !! i = Some (VArr [lat; lon]) ∧
    overlay_circles v !! i = Some c ∧
    marker_latlng m = VArr [lat; lon] ∧
    circle_latlng c = VArr [lat; lon].
Proof.
  intros Hv Hi Hcoords.
  destruct (createMap_Ok_nth items geoJsonData v i item Hv Hi) as (Hm & Hh & Hc).
  assert (position_of item = VArr [lat; lon]) as Hpos.
  { unfold position_of. by rewrite Hcoords. }
  exists (marker_of item), (circle_of item). rewrite <- Hpos. by split_and!.
Qed.

(** X13. An item whose coordinates are fewer than three has no depth,
    and its circle is red. *)
Theorem createMap_no_depth (items : list value) (geoJsonData : value) (v : view)
    (i : nat) (item : value) (elems : list value) :
  createMap (VArr items) geoJsonData = Ok v →
  List.filter has_geometry items !! i = Some item →
  field (field item "geometry") "coordinates" = VArr elems →
  (length elems ≤ 2)%nat →
  ∃ c : Circle,
    overlay_circles v !! i = Some c ∧
    color c = "#EA2C2C" ∧ fillColor c = "#EA2C2C".
Proof.
  intros Hv Hi Hcoords Hlen.
  destruct (createMap_Ok_nth items geoJsonData v i item Hv Hi) as (_ & _ & Hc).
  exists (circle_of item). split; [done|]. cbn.
  assert (depth_of item = NaN) as ->; [|done].
  unfold depth_of, element. rewrite Hcoords; cbn.
  by rewrite (lookup_ge_None_2 elems 2).
Qed.

(** X14. An item whose magnitude is missing or [null] has a circle of
    radius 1. *)
Theorem createMap_no_magnitude (items : list value) (geoJsonData : value)
    (v : view) (i : nat) (item : value) :
  createMap (VArr items) geoJsonData = Ok v →
  List.filter has_geometry items !! i = Some item →
  is_nullish (field (field item "properties") "mag") = true →
  ∃ c : Circle, overlay_circles v !! i = Some c ∧ radius c = of_Z 1.
Proof.
  intros Hv Hi Hmag.
  destruct (createMap_Ok_nth items geoJsonData v i item Hv Hi) as (_ & _ & Hc).
  exists (circle_of item). split; [done|]. cbn. unfold magnitude_of.
  by destruct (field (field item "properties") "mag").
Qed.

End Loop.

(** ** Examples of the loop theorems *)

Lemma legend_matches_colours_witness :
  In {| entry_color := "#EECC00"; entry_range := "30 to 50" |} depthRange ∧
  ∃ d : number, getColorByDepth d = "#EECC00".
Proof.
  split; [do 2 right; left; reflexivity|].
  apply (proj2 legend_matches_colours
           {| entry_color := "#EECC00"; entry_range := "30 to 50" |}).
  do 2 right; left; reflexivity.
Defined.

Lemma createMap_parallel_witness :
  ∃ v : view,
    @createMap example_runtime (VArr [bay_area; unlocated]) example_plates = Ok v ∧
    marker_latlng <$> overlay_markers v = heat_latlngs (overlay_heatmap v) ∧
    circle_latlng <$> overlay_circles v = heat_latlngs (overlay_heatmap v) ∧
    circle_popup <$> overlay_circles v = marker_popup <$> overlay_markers v ∧
    Forall (λ c, fillColor c = color c) (overlay_circles v).
Proof.
  exists (@view_of_features example_runtime [bay_area; unlocated] example_plates).
  split; [by vm_compute|].
  apply (@createMap_parallel example_runtime (VArr [bay_area; unlocated]) example_plates).
  by vm_compute.
Defined.

Lemma createMap_bad_item_witness :
  (In without_coordinates [bay_area; without_coordinates] ∧
   (is_nullish without_coordinates = true ∨
    (has_geometry without_coordinates = true ∧
     is_nullish (field (field without_coordinates "geometry") "coordinates")
       = true))) ∧
  @createMap example_runtime (VArr [bay_area; without_coordinates]) example_plates
    = Throw TypeError.
Proof.
  assert (has_geometry without_coordinates = true ∧
          is_nullish (field (field without_coordinates "geometry") "coordinates")
            = true) as Hbad by (split; by vm_compute).
  split; [split; [right; left; reflexivity|by right]|].
  apply (@createMap_bad_item example_runtime _ without_coordinates).
  - right; left; reflexivity.
  - by right.
Defined.

Lemma createMap_skips_witness :
  (is_nullish unlocated = false ∧ has_geometry unlocated = false) ∧
  @createMap example_runtime (VArr ([bay_area] ++ unlocated :: [shallow_unknown]))
    example_plates =
  @createMap example_runtime (VArr ([bay_area] ++ [shallow_unknown])) example_plates.
Proof.
  split; [split; by vm_compute|].
  apply (@createMap_skips example_runtime); by vm_compute.
Defined.

Lemma createMap_swaps_witness :
  (@createMap example_runtime (VArr [unlocated; bay_area]) example_plates
     = Ok (@view_of_features example_runtime [unlocated; bay_area] example_plates) ∧
   List.filter has_geometry [unlocated; bay_area] !! 0 = Some bay_area ∧
   field (field bay_area "geometry") "coordinates"
     = VArr [VNum (decimal (-1224) 1); VNum (decimal 378 1); VNum (of_Z 5)]) ∧
  ∃ (m : Marker) (c : Circle),
    overlay_markers
      (@view_of_features example_runtime [unlocated; bay_area] example_plates) !! 0
      = Some m ∧
    heat_latlngs
      (overlay_heatmap
         (@view_of_features example_runtime [unlocated; bay_area] example_plates)) !! 0
      = Some (VArr [VNum (decimal 378 1); VNum (decimal (-1224) 1)]) ∧
    overlay_circles
      (@view_of_features example_runtime [unlocated; bay_area] example_plates) !! 0
      = Some c ∧
    marker_latlng m = VArr [VNum (decimal 378 1); VNum (decimal (-1224) 1)] ∧
    circle_latlng c = VArr [VNum (decimal 378 1); VNum (decimal (-1224) 1)].
Proof.
  split; [split_and!; by vm_compute|].
  apply (@createMap_swaps example_runtime [unlocated; bay_area] example_plates _ 0
           bay_area _ _ [VNum (of_Z 5)]); by vm_compute.
Defined.

Lemma createMap_no_depth_witness :
  (@createMap example_runtime (VArr [shallow_unknown]) example_plates
     = Ok (@view_of_features example_runtime [shallow_unknown] example_plates) ∧
   List.filter has_geometry [shallow_unknown] !! 0 = Some shallow_unknown ∧
   field (field shallow_unknown "geometry") "coordinates"
     = VArr [VNum (decimal (-1224) 1); VNum (decimal 378 1)] ∧
   (length [VNum (decimal (-1224) 1); VNum (decimal 378 1)] ≤ 2)%nat) ∧
  ∃ c : Circle,
    overlay_circles
      (@view_of_features example_runtime [shallow_unknown] example_plates) !! 0
      = Some c ∧
    color c = "#EA2C2C" ∧ fillColor c = "#EA2C2C".
Proof.
  split; [split_and!; try (by vm_compute); cbn; lia|].
  apply (@createMap_no_depth example_runtime [shallow_unknown] example_plates _ 0
           shallow_unknown [VNum (decimal (-1224) 1); VNum (decimal 378 1)]);
    by vm_compute.
Defined.

Lemma createMap_no_magnitude_witness :
  (@createMap example_runtime (VArr [shallow_unknown]) example_plates
     = Ok (@view_of_features example_runtime [shallow_unknown] example_plates) ∧
   List.filter has_geometry [shallow_unknown] !! 0 = Some shallow_unknown ∧
   is_nullish (field (field shallow_unknown "properties") "mag") = true) ∧
  ∃ c : Circle,
    overlay_circles
      (@view_of_features example_runtime [shallow_unknown] example_plates) !! 0
      = Some c ∧
    radius c = of_Z 1.
Proof.
  split; [split_and!; by vm_compute|].
  apply (@createMap_no_magnitude example_runtime [shallow_unknown] example_plates _ 0
           shallow_unknown); by vm_compute.
Defined.

(** ** The page as a whole *)

Lemma Get_Ok_not_nullish (v : value) (name : string) :
  (∃ x, Get v name = Ok x) ↔ is_nullish v = false.
Proof.
  destruct v; cbn; split; try done; try by eauto.
  all: by intros [x Hx].
Qed.

(** X15. [createMap] is called exactly when both requests are fulfilled
    and the first answer is neither [undefined] nor [null]; it is then
    the last thing the page does. *)
Theorem fetchData_invokes_iff (network : list (option value)) :
  (∃ earthquakeData geoJsonData : value,
     In (Invoke earthquakeData geoJsonData) (execute fetchData network)) ↔
  (∃ (r1 r2 : value) (later : list (option value)),
     network = Some r1 :: Some r2 :: later ∧ is_nullish r1 = false).
Proof.
  rewrite execute_fetchData. split.
  - intros (d & g & Hin).
    destruct network as [|[r1|] [|[r2|] later]]; cbn in Hin;
      try (by intuition discriminate).
    exists r1, r2, later. split; [done|].
    apply (Get_Ok_not_nullish r1 "features").
    destruct (Get r1 "features") as [x|e]; [by exists x|].
    by intuition discriminate.
  - intros (r1 & r2 & later & -> & Hr1).
    apply (Get_Ok_not_nullish r1 "features") in Hr1 as [x Hx].
    exists x, r2. rewrite Hx. cbn. tauto.
Qed.

Lemma fetchData_invokes_iff_witness :
  (∃ (r1 r2 : value) (later : list (option value)),
     example_network = Some r1 :: Some r2 :: later ∧ is_nullish r1 = false) ∧
  ∃ earthquakeData geoJsonData : value,
    In (Invoke earthquakeData geoJsonData) (execute fetchData example_network).
Proof.
  assert (∃ (r1 r2 : value) (later : list (option value)),
            example_network = Some r1 :: Some r2 :: later ∧
            is_nullish r1 = false) as Hnet.
  { exists example_feed, example_plates, []. split; reflexivity. }
  split; [exact Hnet|].
  apply (proj2 (fetchData_invokes_iff example_network) Hnet).
Defined.

(** X16. The page never asks twice and never goes on after a failure: no
    request occurs at two places of a run, and a rejection is the last
    event of its run. *)
Theorem fetchData_no_retry (network : list (option value)) :
  (∀ (i j : nat) (url : string),
     execute fetchData network !! i = Some (Request url) →
     execute fetchData network !! j = Some (Request url) →
     i = j) ∧
  (∀ (i : nat) (url : string),
     execute fetchData network !! i = Some (Rejected url) →
     execute fetchData network !! S i = None).
Proof.
  rewrite execute_fetchData. split.
  - intros i j url Hi Hj.
    destruct network as [|[r1|] [|[r2|] later]];
      destruct i as [|[|[|[|[|i]]]]]; cbn in Hi; try done;
      destruct j as [|[|[|[|[|j]]]]]; cbn in Hj; try done;
      try (exfalso; apply urls_differ; congruence);
      by destruct (Get r1 "features").
  - intros i url Hi.
    destruct network as [|[r1|] [|[r2|] later]];
      destruct i as [|[|[|[|[|i]]]]]; cbn in Hi; try done;
      by destruct (Get r1 "features").
Qed.

Lemma fetchData_no_retry_witness :
  execute fetchData [Some example_feed; None] !! 3 = Some (Rejected tectonicUrl) ∧
  execute fetchData [Some example_feed; None] !! 4 = None.
Proof.
  split; [by vm_compute|].
  apply (proj2 (fetchData_no_retry [Some example_feed; None]) 3 tectonicUrl).
  by vm_compute.
Defined.

Section Outcome.

Context `{Runtime}.

(** X17. The page ends with a map only if both requests are fulfilled
    and the [features] of the first answer are an array of processable
    items; the map is then made of those features and of the second
    answer, passed on as it came. *)
Theorem page_renders (network : list (option value)) (v : view) :
  outcome fetchData network = Some (Ok v) →
  ∃ (r1 r2 : value) (later : list (option value)) (items : list value),
    network = Some r1 :: Some r2 :: later ∧
    Get r1 "features" = Ok (VArr items) ∧
    forallb processable items = true ∧
    v = view_of_features items r2.
Proof.
  destruct network as [|[r1|] [|[r2|] later]]; cbn; try done.
  destruct (Get r1 "features") as [d|e] eqn:Hd; cbn; [|done].
  intros [= (items & -> & Hall & ->)%createMap_Ok].
  by exists r1, r2, later, items.
Qed.

(** X18. The page ends with nothing, neither a map nor an exception of
    the script, exactly when one of the two requests is rejected or
    stays unanswered. *)
Theorem page_blank_iff (network : list (option value)) :
  outcome fetchData network = None ↔
  ¬ ∃ (r1 r2 : value) (later : list (option value)),
      network = Some r1 :: Some r2 :: later.
Proof.
  split.
  - intros Hnone (r1 & r2 & later & ->). cbn in Hnone.
    by destruct (Get r1 "features").
  - intros Hnot.
    destruct network as [|[r1|] [|[r2|] later]]; cbn; try done.
    destruct Hnot. by exists r1, r2, later.
Qed.

End Outcome.

Lemma page_renders_witness :
  @outcome example_runtime fetchData example_network =
    Some (Ok (@view_of_features example_runtime [bay_area; unlocated] example_plates)) ∧
  ∃ (r1 r2 : value) (later : list (option value)) (items : list value),
    example_network = Some r1 :: Some r2 :: later ∧
    Get r1 "features" = Ok (VArr items) ∧
    forallb processable items = true ∧
    @view_of_features example_runtime [bay_area; unlocated] example_plates
      = @view_of_features example_runtime items r2.
Proof.
  split; [by vm_compute|].
  apply (@page_renders example_runtime example_network). by vm_compute.
Defined.

Lemma page_blank_iff_witness :
  @outcome example_runtime fetchData [Some example_feed; None] = None ∧
  ¬ ∃ (r1 r2 : value) (later : list (option value)),
      [Some example_feed; None] = Some r1 :: Some r2 :: later.
Proof.
  split; [by vm_compute|].
  apply (proj1 (@page_blank_iff example_runtime [Some example_feed; None])).
  by vm_compute.
Defined.

Lemma createMap_returns_witness :
  @createMap example_runtime (VArr [bay_area; unlocated]) example_plates =
    Ok (@view_of_features example_runtime [bay_area; unlocated] example_plates) ∧
  ∃ items : list value,
    VArr [bay_area; unlocated] = VArr items ∧
    (∀ item : value, In item items → processable item = true) ∧
    overlay_markers
      (@view_of_features example_runtime [bay_area; unlocated] example_plates)
      = @marker_of example_runtime <$> List.filter has_geometry items ∧
    heat_latlngs
      (overlay_heatmap
         (@view_of_features example_runtime [bay_area; unlocated] example_plates))
      = position_of <$> List.filter has_geometry items ∧
    overlay_circles
      (@view_of_features example_runtime [bay_area; unlocated] example_plates)
      = @circle_of example_runtime <$> List.filter has_geometry items ∧
    overlay_plates
      (@view_of_features example_runtime [bay_area; unlocated] example_plates)
      = plates_layer example_plates.
Proof.
  split; [by vm_compute|].
  apply (@createMap_returns example_runtime (VArr [bay_area; unlocated]) example_plates).
  by vm_compute.
Defined.
